(** * emotion-sync-ui: the emotion inference pipeline

    A shallow embedding of [src/services/emotionDetection.ts]: the
    [EmotionDetectionService] class (lines 21-196) and the polling
    callback of the [Index] page that follows it (lines 206-256), with
    the properties of the inference pipeline proved about them.

    Conventions of the embedding.
    - A JavaScript [number] is [NaN], an infinity or a finite rational:
      arithmetic is exact, binary64 rounding is not modelled, and the two
      zeros of IEEE 754 are one value (nothing in the code tells them
      apart: both are falsy and both compare equal).
    - A value of type [any] is a [jsval]: the JSON-like values a
      classifier hands back, plus the built-in objects that an object
      literal inherits from [Object.prototype].
    - [throw] and [try]/[catch] are an error monad, [outcome].
    - [await] is sequential: a call runs to completion.  A call that
      arrives while another initialisation is in flight is a call made in
      a state whose [isInitializing] is [true].  The module [Async]
      follows a load [await] by [await], for what overlapping calls see.
    - Everything the code asks of its host (the model loader [pipeline],
      the canvas, [Date.now], [Math.random]) is read from a [world]; the
      logging calls are dropped. *)

From Stdlib Require Import ZArith QArith Qround Lia Lqa Bool.
From Stdlib Require Import String Ascii.
From stdpp Require Import base option list strings gmap sorting.

Local Set Warnings "-register-all".
Local Open Scope string_scope.
Local Open Scope Z_scope.

(** ** JavaScript numbers *)

Inductive number : Type :=
| NaN
| PosInf
| NegInf
| Fin (q : Q).

Module Num.

Definition of_Z (z : Z) : number := Fin (inject_Z z).

(** The literals of the source. *)
Definition zero : number := Fin 0.
Definition one : number := Fin 1.
Definition half : number := Fin (1 # 2).

(** [x <= y] of the language: false as soon as one side is [NaN]. *)
Definition leb (x y : number) : bool :=
  match x, y with
  | NaN, _ | _, NaN => false
  | NegInf, _ => true
  | _, PosInf => true
  | PosInf, _ => false
  | Fin _, NegInf => false
  | Fin a, Fin b => Qle_bool a b
  end.

Definition is_zero (x : number) : bool :=
  match x with
  | Fin q => Qeq_bool q 0
  | _ => false
  end.

(** [Math.min] and [Math.max] on two arguments. *)
Definition min (x y : number) : number :=
  match x, y with
  | NaN, _ | _, NaN => NaN
  | _, _ => if leb x y then x else y
  end.

Definition max (x y : number) : number :=
  match x, y with
  | NaN, _ | _, NaN => NaN
  | _, _ => if leb y x then x else y
  end.

Definition sign_nonneg (x : number) : bool := leb zero x.

Definition add (x y : number) : number :=
  match x, y with
  | NaN, _ | _, NaN => NaN
  | PosInf, NegInf | NegInf, PosInf => NaN
  | PosInf, _ | _, PosInf => PosInf
  | NegInf, _ | _, NegInf => NegInf
  | Fin a, Fin b => Fin (a + b)
  end.

Definition mul (x y : number) : number :=
  match x, y with
  | NaN, _ | _, NaN => NaN
  | Fin a, Fin b => Fin (a * b)
  | _, _ =>
      if is_zero x || is_zero y then NaN
      else if Bool.eqb (sign_nonneg x) (sign_nonneg y) then PosInf
      else NegInf
  end.

(** [x / y].  A zero divisor counts as the positive zero. *)
Definition div (x y : number) : number :=
  match x, y with
  | NaN, _ | _, NaN => NaN
  | Fin a, Fin b =>
      if Qeq_bool b 0
      then (if Qeq_bool a 0 then NaN
            else if Qle_bool 0 a then PosInf else NegInf)
      else Fin (a / b)
  | Fin _, _ => zero
  | _, Fin _ =>
      if Bool.eqb (sign_nonneg x) (sign_nonneg y) then PosInf else NegInf
  | _, _ => NaN
  end.

(** Rounding towards zero. *)
Definition Qtrunc (q : Q) : Z := Z.quot (Qnum q) (Zpos (Qden q)).

(** [x % y]: the remainder has the sign of the dividend. *)
Definition rem (x y : number) : number :=
  match x, y with
  | NaN, _ | _, NaN => NaN
  | PosInf, _ | NegInf, _ => NaN
  | Fin _, PosInf | Fin _, NegInf => x
  | Fin a, Fin b =>
      if Qeq_bool b 0 then NaN
      else Fin (a - b * inject_Z (Qtrunc (a / b)))
  end.

(** [Math.floor]. *)
Definition floor (x : number) : number :=
  match x with
  | Fin q => Fin (inject_Z (Qfloor q))
  | _ => x
  end.

(** The array index a number denotes when it is used as a property
    key: a nonnegative integer, and nothing otherwise. *)
Definition to_index (x : number) : option nat :=
  match x with
  | Fin q =>
      let z := Qfloor q in
      if Qeq_bool q (inject_Z z) && (0 <=? z) then Some (Z.to_nat z)
      else None
  | _ => None
  end.

End Num.

(** ** Values of type [any]

    An object is the list of its own properties, under distinct keys;
    [JBuiltin] stands for an object of the standard library, named. *)

Inductive jsval : Type :=
| JUndefined
| JNull
| JBool (b : bool)
| JNum (n : number)
| JStr (s : string)
| JArr (elems : list jsval)
| JObj (props : list (string * jsval))
| JBuiltin (name : string).

(** ** Exceptions *)

Inductive error : Type :=
| TypeError (msg : string)
| Error (msg : string)
| DOMException (msg : string).

Inductive outcome (A : Type) : Type :=
| Returned (a : A)
| Thrown (e : error).
Arguments Returned {A} a.
Arguments Thrown {A} e.

Definition bind {A B : Type} (m : outcome A) (k : A -> outcome B) : outcome B :=
  match m with
  | Returned a => k a
  | Thrown e => Thrown e
  end.

Declare Scope js_scope.
Delimit Scope js_scope with js.
Notation "'let*' x ':=' m 'in' k" := (bind m (fun x => k))
  (at level 10, x name, m at level 100, k at level 200) : js_scope.

(** [try { body } catch (error) { return h }] where the handler does not
    throw. *)
Definition try_catch {A : Type} (body : outcome A) (h : error -> A) : A :=
  match body with
  | Returned a => a
  | Thrown e => h e
  end.

(** ** The parts of the language and of its library that the code uses *)

Module JS.

(** [ToBoolean]. *)
Definition truthy (v : jsval) : bool :=
  match v with
  | JUndefined | JNull => false
  | JBool b => b
  | JNum NaN => false
  | JNum n => negb (Num.is_zero n)
  | JStr s => negb (String.eqb s "")
  | JArr _ | JObj _ | JBuiltin _ => true
  end.

(** [a || b]. *)
Definition or (a b : jsval) : jsval := if truthy a then a else b.

(** [String.prototype.toLowerCase], on the letters A-Z.  No character
    outside ASCII that the full Unicode mapping sends into ASCII
    occurs in a key of the tables below, so the lookups agree. *)
Definition lower_ascii (c : ascii) : ascii :=
  let n := nat_of_ascii c in
  if (65 <=? n)%nat && (n <=? 90)%nat then ascii_of_nat (n + 32) else c.

Fixpoint toLowerCase (s : string) : string :=
  match s with
  | EmptyString => EmptyString
  | String c s' => String (lower_ascii c) (toLowerCase s')
  end.

(** The properties every ordinary object inherits: the own keys of
    [Object.prototype].  The values are built-in functions, except
    [__proto__], an accessor that yields [Object.prototype] itself. *)
Definition Object_prototype : gmap string jsval :=
  list_to_map
    [ ("constructor", JBuiltin "Object");
      ("__proto__", JBuiltin "Object.prototype");
      ("hasOwnProperty", JBuiltin "Object.prototype.hasOwnProperty");
      ("isPrototypeOf", JBuiltin "Object.prototype.isPrototypeOf");
      ("propertyIsEnumerable", JBuiltin "Object.prototype.propertyIsEnumerable");
      ("toLocaleString", JBuiltin "Object.prototype.toLocaleString");
      ("toString", JBuiltin "Object.prototype.toString");
      ("valueOf", JBuiltin "Object.prototype.valueOf");
      ("__defineGetter__", JBuiltin "Object.prototype.__defineGetter__");
      ("__defineSetter__", JBuiltin "Object.prototype.__defineSetter__");
      ("__lookupGetter__", JBuiltin "Object.prototype.__lookupGetter__");
      ("__lookupSetter__", JBuiltin "Object.prototype.__lookupSetter__") ].

Definition inherited (k : string) : jsval :=
  default JUndefined (Object_prototype !! k).

(** [o[k]] on an object literal whose own properties are [own]: the
    own property, or else the one found along the prototype chain. *)
Definition get_literal (own : gmap string jsval) (k : string) : jsval :=
  match own !! k with
  | Some v => v
  | None => inherited k
  end.

(** [v.k].  Reading a property of [undefined] or [null] throws.  The
    prototypes of strings, numbers, booleans and arrays are not
    spelled out: the code reads [label] and [score] only, which none
    of them defines. *)
Definition get (v : jsval) (k : string) : outcome jsval :=
  match v with
  | JUndefined | JNull =>
      Thrown (TypeError ("Cannot read properties of undefined (reading '" ++ k ++ "')"))
  | JObj props => Returned (get_literal (list_to_map props) k)
  | _ => Returned (inherited k)
  end.

(** [v.toLowerCase()]. *)
Definition call_toLowerCase (v : jsval) : outcome string :=
  match v with
  | JStr s => Returned (toLowerCase s)
  | JUndefined | JNull =>
      Thrown (TypeError "Cannot read properties of undefined (reading 'toLowerCase')")
  | _ => Thrown (TypeError "toLowerCase is not a function")
  end.

(** [Array.isArray]. *)
Definition isArray (v : jsval) : bool :=
  match v with
  | JArr _ => true
  | _ => false
  end.

(** [v.length] and [v[0]] for a [v] that passed [Array.isArray]. *)
Definition length (v : jsval) : Z :=
  match v with
  | JArr l => Z.of_nat (List.length l)
  | _ => 0
  end.

Definition first (v : jsval) : jsval :=
  match v with
  | JArr (x :: _) => x
  | _ => JUndefined
  end.

(** [ToNumber].  Strings go through the numeric-literal grammar, and
    arrays through [Array.prototype.join] first; both are taken from
    the runtime as they are ([StringToNumber], [ArrayToString]). *)
Definition ToNumber (StringToNumber : string -> number)
    (ArrayToString : list jsval -> string) (v : jsval) : number :=
  match v with
  | JUndefined => NaN
  | JNull => Num.zero
  | JBool b => if b then Num.one else Num.zero
  | JNum n => n
  | JStr s => StringToNumber s
  | JArr l => StringToNumber (ArrayToString l)
  | JObj _ | JBuiltin _ => NaN
  end.

End JS.

(** ** The host *)

(** The three kinds of element the service accepts, with the intrinsic
    dimensions it reads from them (each an [unsigned long]). *)
Inductive source : Type :=
| HTMLVideoElement (videoWidth videoHeight : N)
| HTMLImageElement (width height : N)
| HTMLCanvasElement (width height : N).

(** A loaded pipeline: from the encoded frame to the raw results, or an
    exception. *)
Definition classifier_fn : Type := string -> outcome jsval.

Record world : Type := {
  (** [pipeline(task, model, { device, ... })] *)
  pipeline : string -> string -> string -> outcome classifier_fn;
  (** whether [canvas.getContext('2d')] yields a context *)
  getContext : bool;
  (** [ctx.drawImage(imageElement, 0, 0, width, height)] *)
  drawImage : source -> N -> N -> outcome unit;
  (** [canvas.toDataURL(type)] of the canvas the frame was drawn on *)
  toDataURL : string -> source -> N -> N -> outcome string;
  (** [Date.now()], in milliseconds *)
  Date_now : Z;
  (** [Math.random()] *)
  Math_random : Q;
  StringToNumber : string -> number;
  ArrayToString : list jsval -> string
}.

(** What the language promises of [Math.random]. *)
Definition random_in_range (w : world) : Prop :=
  (0 <= Math_random w /\ Math_random w < 1)%Q.

(** ** [src/services/emotionDetection.ts] *)

Record EmotionPrediction : Type := {
  emotion : jsval;
  confidence : number;
  timestamp : Z
}.

Module EmotionDetectionService.

(** The private fields of the class. *)
Record t : Type := {
  classifier : option classifier_fn;
  isInitialized : bool;
  isInitializing : bool
}.

(** [new EmotionDetectionService()] *)
Definition new : t :=
  {| classifier := None; isInitialized := false; isInitializing := false |}.

Record ModelOption : Type := { model : string; device : string }.

Definition modelOptions : list ModelOption :=
  [ {| model := "onnx-community/emotion-ferplus-8"; device := "cpu" |};
    {| model := "onnx-community/emotion-ferplus-8"; device := "webgpu" |};
    {| model := "Xenova/distilbert-base-uncased-emotion"; device := "cpu" |} ].

(** The [for ... of] loop of [initialize]: the first option that loads
    is adopted and ends the loop, one that throws is skipped. *)
Fixpoint try_models (w : world) (options : list ModelOption) (this : t) : t :=
  match options with
  | [] => this
  | option :: rest =>
      match pipeline w "image-classification" (model option) (device option) with
      | Returned c =>
          {| classifier := Some c;
             isInitialized := true;
             isInitializing := isInitializing this |}
      | Thrown _ => try_models w rest this
      end
  end.

Definition AllFailed : error :=
  Error "All emotion detection models failed to load".

Definition initialize (w : world) (this : t) : outcome unit * t :=
  if isInitialized this || isInitializing this then (Returned tt, this)
  else
    let this1 :=
      {| classifier := classifier this;
         isInitialized := isInitialized this;
         isInitializing := true |} in
    let this2 := try_models w modelOptions this1 in
    let result :=
      if negb (isInitialized this2) then Thrown AllFailed else Returned tt in
    (* catch: logs and rethrows; finally: *)
    (result,
     {| classifier := classifier this2;
        isInitialized := isInitialized this2;
        isInitializing := false |}).

Definition isReady (this : t) : bool := isInitialized this.

(** [x || d] on an [unsigned long]. *)
Definition or_default (x d : N) : N := if (x =? 0)%N then d else x.

(** The size given to the canvas (lines 87-95). *)
Definition canvas_width (imageElement : source) : N :=
  match imageElement with
  | HTMLVideoElement videoWidth _ => N.max (or_default videoWidth 640) 224
  | HTMLImageElement width _
  | HTMLCanvasElement width _ => N.max (or_default width 640) 224
  end.

Definition canvas_height (imageElement : source) : N :=
  match imageElement with
  | HTMLVideoElement _ videoHeight => N.max (or_default videoHeight 480) 224
  | HTMLImageElement _ height
  | HTMLCanvasElement _ height => N.max (or_default height 480) 224
  end.

Definition emotionMap : gmap string jsval :=
  list_to_map
    [ ("angry", JStr "angry");
      ("disgusted", JStr "disgust");
      ("fearful", JStr "fear");
      ("happy", JStr "happy");
      ("neutral", JStr "neutral");
      ("sad", JStr "sad");
      ("surprised", JStr "surprised");
      ("contempt", JStr "disgust");
      ("disgust", JStr "disgust");
      ("fear", JStr "fear");
      ("joy", JStr "happy");
      ("sadness", JStr "sad");
      ("anger", JStr "angry") ].

(** [emotionMap[label.toLowerCase()] || 'neutral'] for a string
    [label] (line 132). *)
Definition mapEmotion (key : string) : jsval :=
  JS.or (JS.get_literal emotionMap key) (JStr "neutral").

(** [Math.max(0, Math.min(1, score || 0.5))] (line 133). *)
Definition clampConfidence (w : world) (score : jsval) : number :=
  Num.max Num.zero
    (Num.min Num.one
       (JS.ToNumber (StringToNumber w) (ArrayToString w)
          (JS.or score (JNum Num.half)))).

(** [await this.classifier(imageData)]: calling [null] throws. *)
Definition call_classifier (this : t) (imageData : string) : outcome jsval :=
  match classifier this with
  | Some c => c imageData
  | None => Thrown (TypeError "this.classifier is not a function")
  end.

(** Lines 80-107: the frame is drawn on a canvas of the size above
    and encoded, as JPEG or else as PNG. *)
Definition captureFrame (w : world) (imageElement : source) : outcome string :=
  (let* ctx :=
     if getContext w then Returned tt
     else Thrown (Error "Could not get canvas context") in
   let width := canvas_width imageElement in
   let height := canvas_height imageElement in
   let* drawn := drawImage w imageElement width height in
   match toDataURL w "image/jpeg" imageElement width height with
   | Returned imageData => Returned imageData
   | Thrown _ => toDataURL w "image/png" imageElement width height
   end)%js.

(** Lines 112-145: what is made of the classifier's answer. *)
Definition readResults (w : world) (results : jsval)
  : outcome (option EmotionPrediction) :=
  (if JS.truthy results && JS.isArray results && (0 <? JS.length results)
   then
     let topResult := JS.first results in
     let* label := JS.get topResult "label" in
     let* key := JS.call_toLowerCase label in
     let mappedEmotion := mapEmotion key in
     let* score := JS.get topResult "score" in
     let confidence := clampConfidence w score in
     Returned (Some {| emotion := mappedEmotion;
                       confidence := confidence;
                       timestamp := Date_now w |})
   else Returned None)%js.

(** The body of the [try] block of [detectEmotion]. *)
Definition detect_frame (w : world) (this : t) (imageElement : source)
  : outcome (option EmotionPrediction) :=
  (let* imageData := captureFrame w imageElement in
   let* results := call_classifier this imageData in
   readResults w results)%js.

(** Lines 75-77. *)
Definition ensureInitialized (w : world) (this : t) : outcome unit * t :=
  if negb (isInitialized this) then initialize w this
  else (Returned tt, this).

(** [detectEmotion]: the initialisation is awaited outside the [try]
    block, so its exception is the caller's; whatever the block throws
    is answered with [null]. *)
Definition detectEmotion (w : world) (this : t) (imageElement : source)
  : outcome (option EmotionPrediction) * t :=
  let '(ready, this') := ensureInitialized w this in
  match ready with
  | Thrown e => (Thrown e, this')
  | Returned _ =>
      (Returned (try_catch (detect_frame w this' imageElement) (fun _ => None)),
       this')
  end.

Definition emotions : list string :=
  [ "happy"; "neutral"; "surprised"; "sad"; "angry"; "fear"; "disgust" ].

(** [array[i]] for a number [i]: [undefined] unless [i] is an index
    of the array. *)
Definition at_index (array : list string) (i : number) : jsval :=
  match Num.to_index i with
  | Some n =>
      match array !! n with
      | Some s => JStr s
      | None => JUndefined
      end
  | None => JUndefined
  end.

Definition fallbackEmotionDetection (w : world) (imageElement : source)
  : EmotionPrediction :=
  let currentTime := Date_now w in
  let emotionIndex :=
    Num.floor
      (Num.rem (Num.div (Num.of_Z currentTime) (Num.of_Z 3000))
               (Num.of_Z (Z.of_nat (List.length emotions)))) in
  let selectedEmotion := at_index emotions emotionIndex in
  let confidence :=
    Num.add (Fin (2 # 5)) (Num.mul (Fin (Math_random w)) (Fin (3 # 10))) in
  {| emotion := selectedEmotion;
     confidence := confidence;
     timestamp := currentTime |}.

(** The primary path is commented out in the source: the fallback
    answers every call. *)
Definition detectEmotionWithFallback (w : world) (this : t)
    (imageElement : source) : outcome (option EmotionPrediction) * t :=
  (Returned (Some (fallbackEmotionDetection w imageElement)), this).

End EmotionDetectionService.

(** ** The [Index] page: the polling callback *)

Module Index.

Import EmotionDetectionService.

(** The React state the callback reads and writes. *)
Record state : Type := {
  currentEmotion : option EmotionPrediction;
  emotionHistory : list EmotionPrediction;
  videoElement : option source
}.

Definition initial : state :=
  {| currentEmotion := None; emotionHistory := []; videoElement := None |}.

(** [handleVideoReady] *)
Definition handleVideoReady (video : source) (s : state) : state :=
  {| currentEmotion := currentEmotion s;
     emotionHistory := emotionHistory s;
     videoElement := Some video |}.

(** [array.slice(start)]: a negative [start] counts from the end. *)
Definition slice {A : Type} (start : Z) (array : list A) : list A :=
  let len := Z.of_nat (List.length array) in
  let from := if start <? 0 then Z.max (len + start) 0 else Z.min start len in
  drop (Z.to_nat from) array.

(** One run of the [detectEmotion] callback (lines 244-256): one tick
    of the interval. *)
Definition detectEmotion (w : world) (service : t) (s : state) : t * state :=
  match videoElement s with
  | None => (service, s)
  | Some video =>
      match detectEmotionWithFallback w service video with
      | (Returned (Some prediction), service') =>
          (service',
           {| currentEmotion := Some prediction;
              emotionHistory := slice (-49) (emotionHistory s) ++ [prediction];
              videoElement := videoElement s |})
      | (Returned None, service') => (service', s)
      | (Thrown _, service') => (service', s)
      end
  end.

(** The ticks of the interval, one world per tick. *)
Fixpoint ticks (ws : list world) (service : t) (s : state) : t * state :=
  match ws with
  | [] => (service, s)
  | w :: ws' =>
      let '(service', s') := detectEmotion w service s in
      ticks ws' service' s'
  end.

End Index.

(** ** Vocabulary of the properties *)

Import EmotionDetectionService.

(** The seven-label taxonomy. *)
Definition canonical : list string :=
  [ "happy"; "sad"; "angry"; "surprised"; "fear"; "disgust"; "neutral" ].

Definition is_canonical (v : jsval) : bool :=
  match v with
  | JStr s => bool_decide (s ∈ canonical)
  | _ => false
  end.

(** [0 <= c <= 1]; false for [NaN]. *)
Definition in_unit_interval (c : number) : bool :=
  Num.leb Num.zero c && Num.leb c Num.one.


(** The score of the top-ranked entry of a result set. *)
Definition top_score (results : jsval) : jsval :=
  match JS.get (JS.first results) "score" with
  | Returned score => score
  | Thrown _ => JUndefined
  end.



(** A result set the primary path can answer from: a non-empty array
    whose first entry is an object with a string under [label]. *)
Definition conforming (results : jsval) : bool :=
  match results with
  | JArr (JObj props :: _) =>
      match JS.get_literal (list_to_map props) "label" with
      | JStr _ => true
      | _ => false
      end
  | _ => false
  end.

(** No option of the ordered list loads. *)
Definition all_candidates_fail (w : world) : bool :=
  forallb
    (fun option =>
       match pipeline w "image-classification" (model option) (device option) with
       | Thrown _ => true
       | Returned _ => false
       end)
    modelOptions.

(** The intrinsic dimensions the code reads from a source. *)
Definition intrinsic_width (imageElement : source) : N :=
  match imageElement with
  | HTMLVideoElement videoWidth _ => videoWidth
  | HTMLImageElement width _ | HTMLCanvasElement width _ => width
  end.

Definition intrinsic_height (imageElement : source) : N :=
  match imageElement with
  | HTMLVideoElement _ videoHeight => videoHeight
  | HTMLImageElement _ height | HTMLCanvasElement _ height => height
  end.

(** The calls a client can make on the service, and a run of them, each
    in the world it is made in. *)
Inductive call : Type :=
| Initialize
| DetectEmotion (imageElement : source)
| DetectEmotionWithFallback (imageElement : source).

Definition after_call (this : t) (c : world * call) : t :=
  match snd c with
  | Initialize => snd (initialize (fst c) this)
  | DetectEmotion imageElement => snd (detectEmotion (fst c) this imageElement)
  | DetectEmotionWithFallback imageElement =>
      snd (detectEmotionWithFallback (fst c) this imageElement)
  end.

Definition after_calls (calls : list (world * call)) (this : t) : t :=
  fold_left after_call calls this.

(** A call that may start a load is made in a world where no option
    loads; a call of [detectEmotionWithFallback] starts none, whatever
    the world. *)
Definition load_fails (c : world * call) : Prop :=
  match snd c with
  | Initialize | DetectEmotion _ => all_candidates_fail (fst c) = true
  | DetectEmotionWithFallback _ => True
  end.

(** ** The load, [await] by [await]

    [initialize] is suspended at each [await pipeline(...)], and other
    code runs meanwhile: the page starts the load without waiting for
    it.  The fields are written at three places only, all of them in
    [initialize]: at its entry, when an awaited promise settles, and in
    the [finally] block.  So what other code can see of the service is
    told by two events: a call of [initialize], made by the page or by
    [detectEmotion], and the settling of the promise a load waits for. *)

Module Async.

(** The service at a point where other code can run: its fields, and,
    while a load is suspended, the options it has left, the first of
    them being the one awaited. *)
Record t : Type := {
  fields : EmotionDetectionService.t;
  pending : option (list ModelOption)
}.

Definition start : t := {| fields := new; pending := None |}.

Inductive event : Type :=
| Call
| Settle (r : outcome classifier_fn).

(** The loop at its next option: it awaits the first option left; with
    none left it ends, [initialize] throws, and [finally] clears
    [isInitializing]. *)
Definition next_option (f : EmotionDetectionService.t)
    (options : list ModelOption) : t :=
  match options with
  | [] =>
      {| fields := {| classifier := classifier f;
                      isInitialized := isInitialized f;
                      isInitializing := false |};
         pending := None |}
  | _ :: _ => {| fields := f; pending := Some options |}
  end.

Definition step (s : t) (e : event) : t :=
  match e with
  | Call =>
      if isInitialized (fields s) || isInitializing (fields s) then s
      else
        next_option {| classifier := classifier (fields s);
                       isInitialized := isInitialized (fields s);
                       isInitializing := true |}
                    modelOptions
  | Settle r =>
      match pending s with
      | Some (_ :: rest) =>
          match r with
          | Returned c =>
              {| fields := {| classifier := Some c;
                              isInitialized := true;
                              isInitializing := false |};
                 pending := None |}
          | Thrown _ => next_option (fields s) rest
          end
      | Some [] | None => s
      end
  end.

Definition run (events : list event) (s : t) : t := fold_left step events s.

(** The promises of a load in a world [w], in the order they settle:
    one for each option up to the first that loads. *)
Fixpoint settles (w : world) (options : list ModelOption) : list event :=
  match options with
  | [] => []
  | option :: rest =>
      match pipeline w "image-classification" (model option) (device option) with
      | Returned c => [Settle (Returned c)]
      | Thrown e => Settle (Thrown e) :: settles w rest
      end
  end.

Definition consistent (s : t) : Prop :=
  (isInitializing (fields s) = true <-> is_Some (pending s)) /\
  (isInitialized (fields s) = true <-> is_Some (classifier (fields s))) /\
  pending s <> Some [].

End Async.

(** ** Worlds and inputs used as examples *)

Definition answering (results : jsval) : classifier_fn :=
  fun _ => Returned results.

Definition failing : classifier_fn :=
  fun _ => Thrown (Error "inference failed").

(** A host on which no model can be fetched, at time [now] and with
    [random] as the next random number.  No string that reads as a
    number occurs in the examples, so [StringToNumber] answers [NaN]. *)
Definition offline (now : Z) (random : Q) : world :=
  {| pipeline := fun _ _ _ => Thrown (Error "Failed to fetch");
     getContext := true;
     drawImage := fun _ _ _ => Returned tt;
     toDataURL := fun _ _ _ _ => Returned "data:image/jpeg;base64,";
     Date_now := now;
     Math_random := random;
     StringToNumber := fun _ => NaN;
     ArrayToString := fun _ => "" |}.

(** A host on which the first option loads a classifier that answers
    [results] to every frame. *)
Definition online (results : jsval) (now : Z) (random : Q) : world :=
  {| pipeline := fun _ _ _ => Returned (answering results);
     getContext := true;
     drawImage := fun _ _ _ => Returned tt;
     toDataURL := fun _ _ _ _ => Returned "data:image/jpeg;base64,";
     Date_now := now;
     Math_random := random;
     StringToNumber := fun _ => NaN;
     ArrayToString := fun _ => "" |}.

(** The service once a classifier [c] is loaded. *)
Definition loaded (c : classifier_fn) : t :=
  {| classifier := Some c; isInitialized := true; isInitializing := false |}.

(** [[{ label, score }]] *)
Definition result (label : string) (score : jsval) : jsval :=
  JArr [ JObj [ ("label", JStr label); ("score", score) ] ].

Definition webcam : source := HTMLVideoElement 640 480.

(** ** The rest of the [Index] page *)

(** A call of [toast]. *)
Record toast : Type := {
  title : string;
  description : string;
  destructive : bool
}.

Module Page.

(** [setInterval(detectEmotion, 2000)] (line 262). *)
Definition pollingInterval : Z := 2000.

(** The effect that runs on mount (lines 214-241).  [isModelReady] is
    set and the toast shown before the load is started; the promise of
    [initialize] is not awaited, and its rejection is what [.catch]
    logs, so nothing reaches the outer [catch].  The result is the
    service after the load, the new [isModelReady] and the toasts. *)
Definition initModel (w : world) (service : t) : t * bool * list toast :=
  (snd (initialize w service),
   true,
   [ {| title := "Emotion Detection Ready";
        description := "Emotion detection system is now active";
        destructive := false |} ]).

End Page.

(** ** The earlier version of the service

    The file of the repository that holds the service as it was before
    the fallback was pinned: the same [detectEmotion], another third
    model, a fallback that draws its label at random, and the
    primary-first [detectEmotionWithFallback] that the current file
    keeps in a comment (lines 176-188). *)

Module Legacy.

Definition modelOptions : list ModelOption :=
  [ {| model := "onnx-community/emotion-ferplus-8"; device := "cpu" |};
    {| model := "onnx-community/emotion-ferplus-8"; device := "webgpu" |};
    {| model := "microsoft/DialoGPT-medium"; device := "cpu" |} ].

Definition initialize (w : world) (this : t) : outcome unit * t :=
  if isInitialized this || isInitializing this then (Returned tt, this)
  else
    let this1 :=
      {| classifier := classifier this;
         isInitialized := isInitialized this;
         isInitializing := true |} in
    let this2 := try_models w modelOptions this1 in
    let result :=
      if negb (isInitialized this2) then Thrown AllFailed else Returned tt in
    (result,
     {| classifier := classifier this2;
        isInitialized := isInitialized this2;
        isInitializing := false |}).

Definition detectEmotion (w : world) (this : t) (imageElement : source)
  : outcome (option EmotionPrediction) * t :=
  let '(ready, this') :=
    if negb (isInitialized this) then initialize w this
    else (Returned tt, this) in
  match ready with
  | Thrown e => (Thrown e, this')
  | Returned _ =>
      (Returned (try_catch (detect_frame w this' imageElement) (fun _ => None)),
       this')
  end.

Definition emotions : list string :=
  [ "happy"; "sad"; "angry"; "surprised"; "fear"; "disgust"; "neutral" ].

(** The fallback calls [Math.random()] twice: [Math_random w] is the
    first number drawn and [random2] the second. *)
Definition fallbackEmotionDetection (w : world) (random2 : Q)
    (imageElement : source) : EmotionPrediction :=
  let randomEmotion :=
    at_index emotions
      (Num.floor
         (Num.mul (Fin (Math_random w))
                  (Num.of_Z (Z.of_nat (List.length emotions))))) in
  let randomConfidence :=
    Num.add (Fin (3 # 10)) (Num.mul (Fin random2) (Fin (4 # 10))) in
  {| emotion := randomEmotion;
     confidence := randomConfidence;
     timestamp := Date_now w |}.

(** [detectEmotionWithFallback]: the primary path first; its [null]
    and its exception are both answered by the fallback. *)
Definition detectEmotionWithFallback (w : world) (random2 : Q) (this : t)
    (imageElement : source) : outcome (option EmotionPrediction) * t :=
  match detectEmotion w this imageElement with
  | (Returned (Some result), this') => (Returned (Some result), this')
  | (Returned None, this')
  | (Thrown _, this') =>
      (Returned (Some (fallbackEmotionDetection w random2 imageElement)), this')
  end.

End Legacy.

(** ** The [WebcamFeed] component *)

Module WebcamFeed.

(** A stream is the list of its tracks. *)
Definition MediaStream : Type := list nat.

(** What [getUserMedia] settles with: a stream, or a rejection with the
    [name] and [message] the [catch] block reads. *)
Inductive media_result : Type :=
| Stream (stream : MediaStream)
| Rejected (name message : string).

Record host : Type := {
  (** [window.location.protocol] and [window.location.hostname] *)
  protocol : string;
  hostname : string;
  (** [navigator.mediaDevices] and its [getUserMedia] are there *)
  mediaDevices : bool;
  getUserMedia : media_result
}.

(** The state of the component.  [srcObject] is the stream of the
    [<video>] element while there is one. *)
Record state : Type := {
  isActive : bool;
  isLoading : bool;
  srcObject : option MediaStream
}.

Definition initial : state :=
  {| isActive := false; isLoading := false; srcObject := None |}.

(** The [<video ref={videoRef}>] element is rendered in the branch
    [isActive ? ... : ...] only (lines 101-109): [videoRef.current] is an
    element while [isActive] holds and [null] otherwise. *)
Definition videoRef_current (s : state) : bool := isActive s.

(** What a call does besides changing the state. *)
Inductive event : Type :=
| Toast (t : toast)
| Play
| VideoReady
| TrackStopped (track : nat).

(** [s.includes(sub)] *)
Definition includes (sub s : string) : bool :=
  match String.index 0 sub s with
  | Some _ => true
  | None => false
  end.

(** The message the [catch] block picks (lines 53-63). *)
Definition errorMessage (name message : string) : string :=
  if String.eqb name "NotAllowedError"
  then "Camera permission denied. Please allow camera access and refresh the page."
  else if String.eqb name "NotFoundError"
  then "No camera found. Please connect a camera and try again."
  else if String.eqb name "NotSupportedError"
  then "Camera not supported. Please use a modern browser with HTTPS."
  else if includes "HTTPS" message
  then "Camera requires HTTPS. Please use HTTPS or localhost."
  else "Could not access your camera. Please check permissions.".

Definition isSecure (h : host) : bool :=
  String.eqb (protocol h) "https:" || String.eqb (hostname h) "localhost".

(** The [try] block of [startWebcam] (lines 20-50): the state and the
    events it leaves, or the [name] and [message] of what it throws. *)
Definition tryStart (h : host) (s : state)
  : (state * list event) + (string * string) :=
  if negb (isSecure h)
  then inr ("Error", "Camera access requires HTTPS. Please use HTTPS or localhost.")
  else if negb (mediaDevices h)
  then inr ("Error", "Camera not supported in this browser")
  else
    match getUserMedia h with
    | Rejected name message => inr (name, message)
    | Stream stream =>
        if videoRef_current s
        then inl ({| isActive := true;
                     isLoading := isLoading s;
                     srcObject := Some stream |},
                  [ Play; VideoReady;
                    Toast {| title := "Camera Active";
                             description := "Emotion detection is now running";
                             destructive := false |} ])
        else inl (s, [])
    end.

Definition setIsLoading (b : bool) (s : state) : state :=
  {| isActive := isActive s; isLoading := b; srcObject := srcObject s |}.

Definition startWebcam (h : host) (s : state) : state * list event :=
  match tryStart h (setIsLoading true s) with
  | inl (s', events) => (setIsLoading false s', events)
  | inr (name, message) =>
      (setIsLoading false s,
       [ Toast {| title := "Camera Error";
                  description := errorMessage name message;
                  destructive := true |} ])
  end.

(** [stopWebcam] (lines 75-87).  With [isActive] false the element is
    gone, and its stream with it. *)
Definition stopWebcam (s : state) : state * list event :=
  match videoRef_current s, srcObject s with
  | true, Some stream =>
      ({| isActive := false; isLoading := isLoading s; srcObject := None |},
       (map TrackStopped stream ++
        [ Toast {| title := "Camera Stopped";
                   description := "Emotion detection paused";
                   destructive := false |} ])%list)
  | _, _ => (s, [])
  end.

(** The button (line 128): [onClick={isActive ? stopWebcam : startWebcam}]. *)
Definition click (h : host) (s : state) : state * list event :=
  if isActive s then stopWebcam s else startWebcam h s.

(** A run of clicks, each on the host of its time. *)
Fixpoint clicks (hs : list host) (s : state) : state * list event :=
  match hs with
  | [] => (s, [])
  | h :: hs' =>
      let '(s1, events1) := click h s in
      let '(s2, events2) := clicks hs' s1 in
      (s2, (events1 ++ events2)%list)
  end.

End WebcamFeed.

(** ** The [EmotionDashboard] component *)

Module EmotionDashboard.

(** The interface [EmotionData] of the component. *)
Record EmotionData : Type := {
  emotion : string;
  confidence : number;
  timestamp : Z
}.

(** What the runtime is asked for: the text of a built-in function and
    of an array, as [+] makes strings of them. *)
Record runtime : Type := {
  native_source : string -> string;
  ArrayToString : list jsval -> string
}.

(** [x + 1]: a sum of numbers, and a concatenation as soon as [x] is,
    or converts to, a string. *)
Definition plus_one (rt : runtime) (x : jsval) : jsval :=
  match x with
  | JUndefined => JNum NaN
  | JNull => JNum (Num.add Num.zero Num.one)
  | JBool b => JNum (Num.add (if b then Num.one else Num.zero) Num.one)
  | JNum n => JNum (Num.add n Num.one)
  | JStr s => JStr (s ++ "1")
  | JArr l => JStr (ArrayToString rt l ++ "1")
  | JObj _ => JStr "[object Object]1"
  | JBuiltin name =>
      if String.eqb name "Object.prototype" then JStr "[object Object]1"
      else JStr (native_source rt name ++ "1")
  end.

(** [counts[data.emotion] = (counts[data.emotion] || 0) + 1] on the
    object [counts].  The read goes up the prototype chain; the write
    makes an own property, except under [__proto__], where the setter
    of [Object.prototype] drops a value that is not an object. *)
Definition count_step (rt : runtime) (counts : gmap string jsval)
    (data : EmotionData) : gmap string jsval :=
  let key := emotion data in
  let value := plus_one rt (JS.or (JS.get_literal counts key) (JNum Num.zero)) in
  if String.eqb key "__proto__" then counts else <[key := value]> counts.

(** [getEmotionCounts] (lines 196-202). *)
Definition getEmotionCounts (rt : runtime) (emotionHistory : list EmotionData)
  : gmap string jsval :=
  fold_left (count_step rt) emotionHistory ∅.

Definition totalDetections (emotionHistory : list EmotionData) : Z :=
  Z.of_nat (List.length emotionHistory).

(** [(count / totalDetections) * 100] (line 265). *)
Definition percentage (count : number) (emotionHistory : list EmotionData)
  : number :=
  Num.mul (Num.div count (Num.of_Z (totalDetections emotionHistory)))
          (Num.of_Z 100).

(** How often an emotion occurs in a history. *)
Definition occurrences (key : string) (emotionHistory : list EmotionData) : nat :=
  List.length (filter (fun data => emotion data = key) emotionHistory).

(** No emotion of the history is the name of a member of
    [Object.prototype]. *)
Definition plain_labels (emotionHistory : list EmotionData) : Prop :=
  Forall (fun data => JS.Object_prototype !! emotion data = None) emotionHistory.

End EmotionDashboard.

(** ** More worlds and inputs used as examples *)

(** A host on which only the [webgpu] device loads a model. *)
Definition webgpu_only (results : jsval) (now : Z) (random : Q) : world :=
  {| pipeline := fun _ _ device =>
                   if String.eqb device "webgpu" then Returned (answering results)
                   else Thrown (Error "no available backend found");
     getContext := true;
     drawImage := fun _ _ _ => Returned tt;
     toDataURL := fun _ _ _ _ => Returned "data:image/jpeg;base64,";
     Date_now := now;
     Math_random := random;
     StringToNumber := fun _ => NaN;
     ArrayToString := fun _ => "" |}.

(** An option of the list does not load. *)
Definition fails_to_load (w : world) (option : ModelOption) : bool :=
  match pipeline w "image-classification" (model option) (device option) with
  | Thrown _ => true
  | Returned _ => false
  end.

(** The service while its first load is in flight. *)
Definition loading : t :=
  {| classifier := None; isInitialized := false; isInitializing := true |}.

(** A world the fallback is meant for: a clock after the epoch and a
    random number where [Math.random] draws it. *)
Definition valid_world (w : world) : Prop :=
  0 <= Date_now w /\ random_in_range w.

(** [0.4 <= c <= 0.7] *)
Definition in_fallback_range (c : number) : bool :=
  Num.leb (Fin (2 # 5)) c && Num.leb c (Fin (7 # 10)).

(** A history for the dashboard: three detections of two emotions. *)
Definition sample_history : list EmotionDashboard.EmotionData :=
  [ {| EmotionDashboard.emotion := "happy";
       EmotionDashboard.confidence := Fin (1 # 2);
       EmotionDashboard.timestamp := 0 |};
    {| EmotionDashboard.emotion := "neutral";
       EmotionDashboard.confidence := Fin (1 # 2);
       EmotionDashboard.timestamp := 3000 |};
    {| EmotionDashboard.emotion := "happy";
       EmotionDashboard.confidence := Fin (3 # 5);
       EmotionDashboard.timestamp := 21000 |} ].

Definition v8 : EmotionDashboard.runtime :=
  {| EmotionDashboard.native_source :=
       fun name => "function " ++ name ++ "() { [native code] }";
     EmotionDashboard.ArrayToString := fun _ => "" |}.

(** Hosts for the camera: a page served over https whose camera gives a
    stream of two tracks, and the same page served over http. *)
Definition https_host : WebcamFeed.host :=
  {| WebcamFeed.protocol := "https:";
     WebcamFeed.hostname := "example.org";
     WebcamFeed.mediaDevices := true;
     WebcamFeed.getUserMedia := WebcamFeed.Stream [0%nat; 1%nat] |}.

Definition http_host : WebcamFeed.host :=
  {| WebcamFeed.protocol := "http:";
     WebcamFeed.hostname := "example.org";
     WebcamFeed.mediaDevices := true;
     WebcamFeed.getUserMedia := WebcamFeed.Stream [0%nat; 1%nat] |}.

(** The toast of a failed start. *)
Definition camera_error (message : string) : WebcamFeed.event :=
  WebcamFeed.Toast {| title := "Camera Error";
                      description := message;
                      destructive := true |}.

(** A component whose video element shows a stream. *)
Definition streaming (stream : WebcamFeed.MediaStream) : WebcamFeed.state :=
  {| WebcamFeed.isActive := true;
     WebcamFeed.isLoading := false;
     WebcamFeed.srcObject := Some stream |}.

(** ** Numbers *)

Section Numbers.

Local Open Scope Q_scope.




End Numbers.

(** ** The primary path, step by step *)

Section PrimaryPath.

Variable w : world.

Lemma clampConfidence_absent : clampConfidence w JUndefined = Num.half.
Proof. reflexivity. Qed.

Lemma clampConfidence_NaN : clampConfidence w (JNum NaN) = Num.half.
Proof. reflexivity. Qed.

Lemma clampConfidence_zero (q : Q) :
  (q == 0)%Q -> clampConfidence w (JNum (Fin q)) = Num.half.
Proof.
  intros Hq. unfold clampConfidence, JS.or. simpl.
  apply Qeq_bool_iff in Hq. rewrite Hq. reflexivity.
Qed.



(** A prediction read from a result set carries the clamped score of
    the top entry. *)
Lemma readResults_confidence (results : jsval) (p : EmotionPrediction) :
  readResults w results = Returned (Some p) ->
  confidence p = clampConfidence w (top_score results).
Proof.
  unfold readResults, top_score.
  destruct (JS.truthy results && JS.isArray results && (0 <? JS.length results));
    [|discriminate].
  destruct (JS.get (JS.first results) "label") as [label|]; [|discriminate].
  simpl. destruct (JS.call_toLowerCase label) as [key|]; [|discriminate].
  simpl. destruct (JS.get (JS.first results) "score") as [score|]; [|discriminate].
  simpl. intros [= <-]. reflexivity.
Qed.

(** Once the initialisation has gone through, the frame is captured
    and the classifier has answered, the call returns what
    [readResults] makes of the answer, and [null] where that throws. *)
Lemma detectEmotion_answered (this this' : t) (imageElement : source)
    (imageData : string) (results : jsval) :
  ensureInitialized w this = (Returned tt, this') ->
  captureFrame w imageElement = Returned imageData ->
  call_classifier this' imageData = Returned results ->
  detectEmotion w this imageElement =
  (Returned (try_catch (readResults w results) (fun _ => None)), this').
Proof.
  intros Hinit Hframe Hcall. unfold detectEmotion, detect_frame.
  rewrite Hinit, Hframe. simpl. rewrite Hcall. reflexivity.
Qed.




End PrimaryPath.

(** ** The fallback path *)

Section Fallback.

(** For a time that is not negative, the index computed on numbers is
    the integer [(now / 3000) mod 7]. *)
Lemma emotionIndex_of_time (now : Z) :
  0 <= now ->
  Num.floor (Num.rem (Num.div (Num.of_Z now) (Num.of_Z 3000)) (Num.of_Z 7)) =
  Num.of_Z ((now / 3000) mod 7).
Proof.
  intros Hnow. unfold Num.of_Z, Num.div, Num.rem, Num.floor.
  change (Qeq_bool (inject_Z 3000) 0) with false.
  change (Qeq_bool (inject_Z 7) 0) with false.
  cbv iota. do 2 f_equal.
  unfold Qfloor, Num.Qtrunc. cbn.
  rewrite Z.quot_div_nonneg by lia.
  Z.div_mod_to_equations. lia.
Qed.

Lemma to_index_of_Z (z : Z) :
  0 <= z -> Num.to_index (Num.of_Z z) = Some (Z.to_nat z).
Proof.
  intros Hz. unfold Num.to_index, Num.of_Z. cbv zeta.
  rewrite Qfloor_Z.
  assert (Qeq_bool (inject_Z z) (inject_Z z) = true) as ->
      by (apply Qeq_bool_iff; reflexivity).
  apply Z.leb_le in Hz. rewrite Hz. reflexivity.
Qed.

Lemma fallback_emotion (w : world) (imageElement : source) :
  0 <= Date_now w ->
  emotion (fallbackEmotionDetection w imageElement) =
  at_index emotions (Num.of_Z ((Date_now w / 3000) mod 7)).
Proof.
  intros Hnow. unfold fallbackEmotionDetection. cbn [emotion].
  change (Num.of_Z (Z.of_nat (List.length emotions))) with (Num.of_Z 7).
  rewrite emotionIndex_of_time by exact Hnow. reflexivity.
Qed.

Lemma fallback_confidence (w : world) (imageElement : source) :
  confidence (fallbackEmotionDetection w imageElement) =
  Fin ((2 # 5) + Math_random w * (3 # 10)).
Proof. reflexivity. Qed.

End Fallback.

(** C3: for a time [now >= 0] the fallback picks the label at position
    [floor(now / 3000) mod 7] of its fixed list of seven; the label
    depends on the time alone, so two calls at the same time agree
    whatever the source and the random number; the labels at [now = 0]
    and [now = 3000] differ; and with a random number in [0, 1) the
    confidence lies between 0.4 and 0.7. *)
Theorem fallback_label_cycle (w w' : world) (img img' : source) :
  0 <= Date_now w ->
  random_in_range w ->
  let p := fallbackEmotionDetection w img in
  List.length emotions = 7%nat /\
  (exists label,
      emotions !! Z.to_nat ((Date_now w / 3000) mod 7) = Some label /\
      emotion p = JStr label) /\
  (Date_now w' = Date_now w ->
   emotion (fallbackEmotionDetection w' img') = emotion p) /\
  (Date_now w = 0 -> Date_now w' = 3000 ->
   emotion (fallbackEmotionDetection w' img') <> emotion p) /\
  Num.leb (Fin (2 # 5)) (confidence p) = true /\
  Num.leb (confidence p) (Fin (7 # 10)) = true.
Proof.
  intros Hnow [Hr0 Hr1] p. subst p.
  split; [reflexivity|]. split; [|split; [|split]].
  - rewrite fallback_emotion by exact Hnow. unfold at_index.
    assert (0 <= (Date_now w / 3000) mod 7 < 7) as Hi
        by (apply Z.mod_pos_bound; lia).
    rewrite to_index_of_Z by lia.
    destruct (emotions !! Z.to_nat ((Date_now w / 3000) mod 7)) as [label|] eqn:E.
    + eauto.
    + apply lookup_ge_None in E. simpl in E. lia.
  - intros Heq. rewrite !fallback_emotion by lia. rewrite Heq. reflexivity.
  - intros H0 H3000. rewrite !fallback_emotion by lia.
    rewrite H0, H3000. vm_compute. discriminate.
  - rewrite fallback_confidence. unfold Num.leb.
    split; apply Qle_bool_iff; lra.
Qed.

Lemma fallback_label_cycle_witness :
  0 <= Date_now (offline 0 (1 # 2)) /\
  random_in_range (offline 0 (1 # 2)) /\
  emotion (fallbackEmotionDetection (offline 0 (1 # 2)) webcam) = JStr "happy" /\
  emotion (fallbackEmotionDetection (offline 3000 (1 # 3)) webcam) <> JStr "happy".
Proof.
  assert (0 <= Date_now (offline 0 (1 # 2))) as Hnow by (simpl; lia).
  assert (random_in_range (offline 0 (1 # 2))) as Hrand
      by (unfold random_in_range; simpl; lra).
  split; [exact Hnow|]. split; [exact Hrand|].
  destruct (fallback_label_cycle (offline 0 (1 # 2)) (offline 3000 (1 # 3))
              webcam webcam Hnow Hrand)
    as (_ & _ & _ & Hdiff & _).
  split; [reflexivity|]. exact (Hdiff eq_refl eq_refl).
Defined.

(** ** The orchestrator *)

(** C1: whatever the source, the host and the state of the service (a
    classifier loaded, a classifier that throws, none loaded, a load in
    flight), [detectEmotionWithFallback] returns, and returns a
    prediction, not [null]; it leaves the service as it was. *)
Theorem detectEmotionWithFallback_never_null (w : world) (this : t)
    (imageElement : source) :
  exists p : EmotionPrediction,
    detectEmotionWithFallback w this imageElement = (Returned (Some p), this).
Proof.
  exists (fallbackEmotionDetection w imageElement). reflexivity.
Qed.

(** C9: with the fallback pinned, the answer of
    [detectEmotionWithFallback] does not depend on the source, nor on
    the state of the service: at the same time and with the same random
    number (the same [w]) any two sources get the same prediction. *)
Theorem detectEmotionWithFallback_ignores_source (w : world) (this this' : t)
    (imageElement imageElement' : source) :
  fst (detectEmotionWithFallback w this imageElement) =
  fst (detectEmotionWithFallback w this' imageElement').
Proof. reflexivity. Qed.

(** ** The frame extractor *)

(** C6, as the code has it: per axis, the canvas gets the larger of 224
    and the intrinsic dimension, where an intrinsic dimension of 0 (a
    video whose metadata is not there yet) counts as 640 for the width
    and 480 for the height.  A 100 x 50 video gets a 224 x 224 canvas. *)
Theorem canvas_size_min_224 (imageElement : source) :
  let w0 := intrinsic_width imageElement in
  let h0 := intrinsic_height imageElement in
  canvas_width imageElement = (if (w0 =? 0)%N then 640%N else N.max w0 224) /\
  canvas_height imageElement = (if (h0 =? 0)%N then 480%N else N.max h0 224) /\
  canvas_width (HTMLVideoElement 100 50) = 224%N /\
  canvas_height (HTMLVideoElement 100 50) = 224%N.
Proof.
  destruct imageElement as [vw vh|iw ih|cw ch]; cbn -[N.max];
    unfold or_default;
    repeat split;
    match goal with
    | |- context [(?x =? 0)%N] => destruct (x =? 0)%N; reflexivity
    | _ => reflexivity
    end.
Qed.

(** C6 as stated fails on a video whose dimensions are still 0: the
    canvas is 640 x 480, where [max(0, 224)] is 224 on both axes. *)
Lemma canvas_size_zero_video :
  intrinsic_width (HTMLVideoElement 0 0) = 0%N /\
  intrinsic_height (HTMLVideoElement 0 0) = 0%N /\
  canvas_width (HTMLVideoElement 0 0) = 640%N /\
  canvas_height (HTMLVideoElement 0 0) = 480%N /\
  canvas_width (HTMLVideoElement 0 0) <>
    N.max (intrinsic_width (HTMLVideoElement 0 0)) 224 /\
  canvas_height (HTMLVideoElement 0 0) <>
    N.max (intrinsic_height (HTMLVideoElement 0 0)) 224.
Proof. repeat split; vm_compute; discriminate. Qed.

(** ** The primary classifier *)

(** C10: a top-ranked score of exactly 0 is falsy, so [score || 0.5]
    replaces it as it replaces an absent score, and the prediction
    carries confidence 0.5, not 0. *)
Theorem zero_score_defaults_to_half (w : world) (this this' : t)
    (imageElement : source) (imageData : string) (topResult : jsval)
    (rest : list jsval) (label : string) (q : Q) :
  ensureInitialized w this = (Returned tt, this') ->
  captureFrame w imageElement = Returned imageData ->
  call_classifier this' imageData = Returned (JArr (topResult :: rest)) ->
  JS.get topResult "label" = Returned (JStr label) ->
  JS.get topResult "score" = Returned (JNum (Fin q)) ->
  (q == 0)%Q ->
  fst (detectEmotion w this imageElement) =
    Returned (Some {| emotion := mapEmotion (JS.toLowerCase label);
                      confidence := Num.half;
                      timestamp := Date_now w |}) /\
  clampConfidence w (JNum (Fin q)) = clampConfidence w JUndefined.
Proof.
  intros Hinit Hframe Hcall Hlabel Hscore Hq. split.
  - rewrite (detectEmotion_answered w this this' imageElement imageData
               (JArr (topResult :: rest)) Hinit Hframe Hcall).
    unfold readResults. cbn [JS.truthy JS.isArray JS.length JS.first andb].
    assert ((0 <? Z.of_nat (List.length (topResult :: rest))) = true) as ->
        by (apply Z.ltb_lt; simpl; lia).
    rewrite Hlabel. cbn [bind JS.call_toLowerCase].
    rewrite Hscore. cbn [bind fst try_catch].
    rewrite (clampConfidence_zero w q Hq). reflexivity.
  - rewrite (clampConfidence_zero w q Hq). reflexivity.
Qed.

Lemma zero_score_defaults_to_half_witness :
  fst (detectEmotion (online (result "happy" (JNum (Fin 0))) 7 0) new webcam) =
  Returned (Some {| emotion := JStr "happy";
                    confidence := Fin (1 # 2);
                    timestamp := 7 |}).
Proof.
  exact (proj1 (zero_score_defaults_to_half
                  (online (result "happy" (JNum (Fin 0))) 7 0) new
                  (loaded (answering (result "happy" (JNum (Fin 0)))))
                  webcam "data:image/jpeg;base64,"
                  (JObj [("label", JStr "happy"); ("score", JNum (Fin 0))])
                  [] "happy" 0
                  eq_refl eq_refl eq_refl eq_refl eq_refl (Qeq_refl 0))).
Defined.



(** The hypothesis on the scores is needed: a score that is not a number
    goes through [ToNumber], and one that does not read as a number
    leaves [NaN] as the confidence. *)
Remark clampConfidence_untyped_score :
  clampConfidence (offline 0 0) (JStr "high") = NaN /\
  in_unit_interval (clampConfidence (offline 0 0) (JStr "high")) = false.
Proof. split; reflexivity. Qed.




(** What [readResults] answers is decided by the shape of the result
    set: [null] unless it is [conforming]. *)
Lemma inherited_label : JS.inherited "label" = JUndefined.
Proof. reflexivity. Qed.

Lemma readResults_nonconforming (w : world) (results : jsval) :
  conforming results = false ->
  try_catch (readResults w results) (fun _ => None) = None.
Proof.
  intros Hc. unfold readResults.
  destruct results as [| |b|n|s|elems|props|name]; try reflexivity.
  - destruct b; reflexivity.
  - destruct n as [| | |q]; try reflexivity.
    cbn [JS.truthy JS.isArray andb]. destruct (negb (Num.is_zero (Fin q))); reflexivity.
  - cbn [JS.truthy JS.isArray andb]. destruct (negb (s =? ""))%string; reflexivity.
  - destruct elems as [|topResult rest]; [reflexivity|].
    cbn [JS.truthy JS.isArray JS.length JS.first andb].
    assert ((0 <? Z.of_nat (List.length (topResult :: rest))) = true) as ->
        by (apply Z.ltb_lt; simpl; lia).
    destruct topResult as [| |b|n|s|elems|props|name];
      try reflexivity.
    cbn [conforming] in Hc. cbn [JS.get bind].
    destruct (JS.get_literal (list_to_map props) "label"); try reflexivity.
    discriminate Hc.
Qed.

Lemma readResults_conforming (w : world) (results : jsval) :
  conforming results = true ->
  exists p, readResults w results = Returned (Some p).
Proof.
  intros Hc. unfold readResults.
  destruct results as [| | | | |elems| |]; try discriminate.
  destruct elems as [|topResult rest]; [discriminate|].
  destruct topResult as [| | | | | |props|]; try discriminate.
  cbn [JS.truthy JS.isArray JS.length JS.first andb].
  assert ((0 <? Z.of_nat (List.length (JObj props :: rest))) = true) as ->
      by (apply Z.ltb_lt; simpl; lia).
  cbn [conforming] in Hc. cbn [JS.get bind].
  destruct (JS.get_literal (list_to_map props) "label"); try discriminate.
  cbn [JS.call_toLowerCase bind]. eauto.
Qed.

(** C7: once the initialisation has gone through, [detectEmotion] does
    not throw; and it returns [null] when the frame cannot be captured,
    when the call of the classifier throws (a classifier that was never
    loaded included), and when the classifier returns anything but a
    non-empty array whose first entry is an object with a string
    [label]. *)
Theorem detectEmotion_null_on_failure (w : world) (this this' : t)
    (imageElement : source) :
  ensureInitialized w this = (Returned tt, this') ->
  (exists r, detectEmotion w this imageElement = (Returned r, this')) /\
  (forall e,
      captureFrame w imageElement = Thrown e ->
      detectEmotion w this imageElement = (Returned None, this')) /\
  (forall imageData e,
      captureFrame w imageElement = Returned imageData ->
      call_classifier this' imageData = Thrown e ->
      detectEmotion w this imageElement = (Returned None, this')) /\
  (forall imageData results,
      captureFrame w imageElement = Returned imageData ->
      call_classifier this' imageData = Returned results ->
      conforming results = false ->
      detectEmotion w this imageElement = (Returned None, this')).
Proof.
  intros Hinit. split; [|split; [|split]].
  - unfold detectEmotion. rewrite Hinit. eauto.
  - intros e Hframe. unfold detectEmotion, detect_frame.
    rewrite Hinit, Hframe. reflexivity.
  - intros imageData e Hframe Hcall. unfold detectEmotion, detect_frame.
    rewrite Hinit, Hframe. cbn [bind]. rewrite Hcall. reflexivity.
  - intros imageData results Hframe Hcall Hshape.
    rewrite (detectEmotion_answered w this this' imageElement imageData results
               Hinit Hframe Hcall).
    rewrite (readResults_nonconforming w results Hshape). reflexivity.
Qed.

(** The exception of [initialize] is not caught: a call of
    [detectEmotion] on a service that cannot load any model rejects. *)
Remark detectEmotion_propagates_load_failure :
  detectEmotion (offline 0 0) new webcam = (Thrown AllFailed, new).
Proof. reflexivity. Qed.

Lemma detectEmotion_null_on_failure_witness :
  detectEmotion (offline 7 0) (loaded failing) webcam =
    (Returned None, loaded failing) /\
  detectEmotion (offline 7 0) (loaded (answering (JArr []))) webcam =
    (Returned None, loaded (answering (JArr []))).
Proof.
  split.
  - exact (proj1 (proj2 (proj2 (detectEmotion_null_on_failure
             (offline 7 0) (loaded failing) (loaded failing) webcam eq_refl)))
             "data:image/jpeg;base64," (Error "inference failed")
             eq_refl eq_refl).
  - exact (proj2 (proj2 (proj2 (detectEmotion_null_on_failure
             (offline 7 0) (loaded (answering (JArr [])))
             (loaded (answering (JArr []))) webcam eq_refl)))
             "data:image/jpeg;base64," (JArr []) eq_refl eq_refl eq_refl).
Defined.

(** ** The model loader *)

Section Loader.

Variable w : world.

(** While no option loads, the loop leaves the service untouched. *)
Lemma try_models_all_fail (options : list ModelOption) (this : t) :
  forallb
    (fun option =>
       match pipeline w "image-classification" (model option) (device option) with
       | Thrown _ => true
       | Returned _ => false
       end) options = true ->
  try_models w options this = this.
Proof.
  induction options as [|option rest IH]; simpl; [reflexivity|].
  destruct (pipeline w "image-classification" (model option) (device option));
    simpl; [discriminate|exact IH].
Qed.

Lemma initialize_all_fail (this : t) :
  isInitialized this = false ->
  isInitializing this = false ->
  all_candidates_fail w = true ->
  initialize w this = (Thrown AllFailed, this).
Proof.
  intros Hinit Hbusy Hfail. unfold initialize.
  rewrite Hinit, Hbusy. cbn [orb].
  rewrite (try_models_all_fail modelOptions _ Hfail). cbn [isInitialized negb classifier].
  destruct this as [c i b]. simpl in Hinit, Hbusy. subst. reflexivity.
Qed.

(** A call made while no option loads leaves an idle, uninitialised
    service idle and uninitialised. *)
Lemma after_call_all_fail (this : t) (c : call) :
  isInitialized this = false ->
  isInitializing this = false ->
  all_candidates_fail w = true ->
  after_call this (w, c) = this.
Proof.
  intros Hinit Hbusy Hfail. unfold after_call. cbn [fst snd].
  destruct c as [|imageElement|imageElement].
  - rewrite initialize_all_fail by assumption. reflexivity.
  - unfold detectEmotion, ensureInitialized. rewrite Hinit. cbn [negb].
    rewrite initialize_all_fail by assumption. reflexivity.
  - reflexivity.
Qed.

End Loader.

Lemma after_calls_all_fail (calls : list (world * call)) (this : t) :
  isInitialized this = false ->
  isInitializing this = false ->
  Forall (fun c => all_candidates_fail (fst c) = true) calls ->
  after_calls calls this = this.
Proof.
  intros Hinit Hbusy Hall. unfold after_calls.
  induction Hall as [|[w c] calls Hfail _ IH]; simpl; [reflexivity|].
  rewrite (after_call_all_fail w this c Hinit Hbusy Hfail). exact IH.
Qed.

(** With the fallback pinned, its calls never reach the loader. *)
Lemma after_calls_load_fails (calls : list (world * call)) (this : t) :
  isInitialized this = false ->
  isInitializing this = false ->
  Forall load_fails calls ->
  after_calls calls this = this.
Proof.
  intros Hinit Hbusy Hall. unfold after_calls.
  induction Hall as [|[w c] calls Hfail _ IH]; simpl; [reflexivity|].
  assert (after_call this (w, c) = this) as ->; [|exact IH].
  destruct c as [|imageElement|imageElement].
  - exact (after_call_all_fail w this Initialize Hinit Hbusy Hfail).
  - exact (after_call_all_fail w this (DetectEmotion imageElement) Hinit Hbusy Hfail).
  - reflexivity.
Qed.

(** As soon as one option loads, the loop sets [isInitialized]. *)
Lemma try_models_loads (w : world) (options : list ModelOption) (this : t) :
  forallb
    (fun option =>
       match pipeline w "image-classification" (model option) (device option) with
       | Thrown _ => true
       | Returned _ => false
       end) options = false ->
  isInitialized (try_models w options this) = true.
Proof.
  induction options as [|option rest IH]; simpl; [discriminate|].
  destruct (pipeline w "image-classification" (model option) (device option));
    simpl; [reflexivity|exact IH].
Qed.

Lemma initialize_loads (w : world) (this : t) :
  isInitialized this = false ->
  isInitializing this = false ->
  all_candidates_fail w = false ->
  isReady (snd (initialize w this)) = true.
Proof.
  intros Hinit Hbusy Hload. unfold initialize. rewrite Hinit, Hbusy.
  cbn [orb snd isReady isInitialized].
  apply try_models_loads. exact Hload.
Qed.

(** C8, as the code has it: when no option of the list loads,
    [initialize] throws the aggregate error and leaves the service as
    it was, neither initialised nor initialising: the code keeps no
    failed state.  [isReady()] is false then, and stays false for as
    long as no later [initialize] or [detectEmotion] loads an option:
    through every run of later calls in which those two are made while
    no option loads, whatever the worlds of the calls of
    [detectEmotionWithFallback]; the first of the two made in a world
    where an option loads makes it true.  [detectEmotionWithFallback]
    returns a prediction all along, in every world. *)
Theorem initialize_all_candidates_fail (w later retry : world) (this : t)
    (calls : list (world * call)) (imageElement : source) :
  isInitialized this = false ->
  isInitializing this = false ->
  all_candidates_fail w = true ->
  Forall load_fails calls ->
  let this' := snd (initialize w this) in
  fst (initialize w this) = Thrown AllFailed /\
  this' = this /\
  isReady this' = false /\
  isReady (after_calls calls this') = false /\
  (exists p,
      fst (detectEmotionWithFallback later (after_calls calls this') imageElement) =
      Returned (Some p)) /\
  (all_candidates_fail retry = false ->
   isReady (snd (initialize retry (after_calls calls this'))) = true /\
   isReady (snd (detectEmotion retry (after_calls calls this') imageElement)) = true).
Proof.
  intros Hinit Hbusy Hfail Hlater this'. subst this'.
  rewrite (initialize_all_fail w this Hinit Hbusy Hfail). cbn [fst snd].
  rewrite (after_calls_load_fails calls this Hinit Hbusy Hlater).
  split; [reflexivity|]. split; [reflexivity|]. split; [exact Hinit|].
  split; [exact Hinit|]. split.
  - exists (fallbackEmotionDetection later imageElement). reflexivity.
  - intros Hload. split.
    + exact (initialize_loads retry this Hinit Hbusy Hload).
    + unfold detectEmotion, ensureInitialized. rewrite Hinit. cbn [negb].
      pose proof (initialize_loads retry this Hinit Hbusy Hload) as Hready.
      destruct (initialize retry this) as [[[]|e] this1]; exact Hready.
Qed.

Lemma initialize_all_candidates_fail_witness :
  fst (initialize (offline 0 0) new) = Thrown AllFailed /\
  isReady (after_calls
             [ (online (result "happy" (JNum (Fin 1))) 2000 0,
                DetectEmotionWithFallback webcam);
               (offline 4000 0, DetectEmotion webcam);
               (offline 6000 0, Initialize) ]
             (snd (initialize (offline 0 0) new))) = false.
Proof.
  assert (Forall load_fails
            [ (online (result "happy" (JNum (Fin 1))) 2000 0,
               DetectEmotionWithFallback webcam);
              (offline 4000 0, DetectEmotion webcam);
              (offline 6000 0, Initialize) ]) as Hlater
      by (repeat constructor).
  destruct (initialize_all_candidates_fail (offline 0 0) (offline 0 0)
              (offline 0 0) new
              [ (online (result "happy" (JNum (Fin 1))) 2000 0,
                 DetectEmotionWithFallback webcam);
                (offline 4000 0, DetectEmotion webcam);
                (offline 6000 0, Initialize) ]
              webcam eq_refl eq_refl eq_refl Hlater)
    as (Hthrown & _ & _ & Hready & _).
  split; [exact Hthrown | exact Hready].
Defined.

(** C8 as stated fails: the failure is not final.  After a load in
    which every option failed, a later [initialize], made once the
    model can be fetched, loads it, and [isReady()] is true. *)
Lemma isReady_after_retry :
  all_candidates_fail (offline 0 0) = true /\
  fst (initialize (offline 0 0) new) = Thrown AllFailed /\
  isReady (snd (initialize (offline 0 0) new)) = false /\
  isReady (snd (initialize (online (result "happy" (JNum (Fin 1))) 2000 0)
                  (snd (initialize (offline 0 0) new)))) = true.
Proof. repeat split. Qed.

(** ** The label normaliser *)

Section Labels.

Lemma lower_ascii_idempotent (c : ascii) :
  JS.lower_ascii (JS.lower_ascii c) = JS.lower_ascii c.
Proof.
  destruct c as [[] [] [] [] [] [] [] []]; vm_compute; reflexivity.
Qed.

Lemma toLowerCase_idempotent (s : string) :
  JS.toLowerCase (JS.toLowerCase s) = JS.toLowerCase s.
Proof.
  induction s as [|c s IH]; simpl; [reflexivity|].
  rewrite lower_ascii_idempotent, IH. reflexivity.
Qed.

(** Every value of the table is one of the seven labels. *)
Lemma emotionMap_canonical (key : string) (v : jsval) :
  emotionMap !! key = Some v -> is_canonical v = true.
Proof.
  intros H. apply elem_of_list_to_map_2 in H.
  repeat (apply elem_of_cons in H as [H|H];
          [injection H as -> ->; vm_compute; reflexivity|]).
  apply elem_of_nil in H. contradiction.
Qed.

Lemma emotionMap_truthy (key : string) (v : jsval) :
  emotionMap !! key = Some v -> JS.truthy v = true.
Proof.
  intros H. apply elem_of_list_to_map_2 in H.
  repeat (apply elem_of_cons in H as [H|H];
          [injection H as -> ->; vm_compute; reflexivity|]).
  apply elem_of_nil in H. contradiction.
Qed.

(** The only lower-case names an object literal inherits. *)
Lemma inherited_lowercase (key : string) :
  JS.toLowerCase key = key ->
  key <> "constructor" ->
  key <> "__proto__" ->
  JS.inherited key = JUndefined.
Proof.
  intros Hlow Hc Hp. unfold JS.inherited.
  destruct (JS.Object_prototype !! key) as [v|] eqn:E; [|reflexivity].
  exfalso. apply elem_of_list_to_map_2 in E.
  repeat (apply elem_of_cons in E as [E|E];
          [injection E as -> ->;
           first [ contradiction | vm_compute in Hlow; discriminate Hlow ]|]).
  apply elem_of_nil in E. contradiction.
Qed.

(** Apart from the two inherited names, the normaliser is what it
    is meant to be: a label of the table goes to its entry, any other
    to [neutral]. *)
Lemma mapEmotion_canonical (label : string) :
  JS.toLowerCase label <> "constructor" ->
  JS.toLowerCase label <> "__proto__" ->
  is_canonical (mapEmotion (JS.toLowerCase label)) = true /\
  (emotionMap !! JS.toLowerCase label = None ->
   mapEmotion (JS.toLowerCase label) = JStr "neutral").
Proof.
  intros Hc Hp. unfold mapEmotion, JS.get_literal, JS.or.
  destruct (emotionMap !! JS.toLowerCase label) as [v|] eqn:E.
  - rewrite (emotionMap_truthy _ _ E). split; [|discriminate].
    exact (emotionMap_canonical _ _ E).
  - rewrite (inherited_lowercase _ (toLowerCase_idempotent label) Hc Hp).
    split; reflexivity.
Qed.

Lemma mapEmotion_examples :
  mapEmotion (JS.toLowerCase "Joy") = JStr "happy" /\
  mapEmotion (JS.toLowerCase "CONTEMPT") = JStr "disgust" /\
  mapEmotion (JS.toLowerCase "xyz") = JStr "neutral" /\
  mapEmotion (JS.toLowerCase "") = JStr "neutral".
Proof. repeat split. Qed.

End Labels.

(** C4, at the inputs where the code departs from it: [constructor] and
    [__proto__], in any case, are in no table of the normaliser, and yet
    are not sent to [neutral]: the lookup on the object literal finds the
    members inherited from [Object.prototype], and the prediction
    carries a built-in object as its emotion. *)
Theorem inherited_label_not_neutral (w : world) :
  emotionMap !! JS.toLowerCase "constructor" = None /\
  readResults w (result "constructor" (JNum (Fin (9 # 10)))) =
    Returned (Some {| emotion := JBuiltin "Object";
                      confidence := Fin (9 # 10);
                      timestamp := Date_now w |}) /\
  is_canonical (JBuiltin "Object") = false /\
  emotionMap !! JS.toLowerCase "__PROTO__" = None /\
  readResults w (result "__PROTO__" (JNum (Fin (9 # 10)))) =
    Returned (Some {| emotion := JBuiltin "Object.prototype";
                      confidence := Fin (9 # 10);
                      timestamp := Date_now w |}) /\
  is_canonical (JBuiltin "Object.prototype") = false.
Proof. repeat split. Qed.

(** ** The polling aggregator *)

Section History.

Local Open Scope list_scope.
Local Open Scope nat_scope.

Variable video : source.

(** [slice(-49)] keeps the last 49 entries. *)
Lemma slice_last_49 {A : Type} (l : list A) :
  Index.slice (-49) l = drop (List.length l - 49) l.
Proof.
  unfold Index.slice. cbn [Z.ltb Z.compare]. f_equal. lia.
Qed.

(** One tick with a video attached: the prediction of the fallback is
    the current emotion and the last entry of the history, behind the
    last 49 entries of the history before. *)
Lemma tick_appends (w : world) (service : t) (s : Index.state) :
  Index.videoElement s = Some video ->
  Index.detectEmotion w service s =
  (service,
   {| Index.currentEmotion := Some (fallbackEmotionDetection w video);
      Index.emotionHistory :=
        drop (List.length (Index.emotionHistory s) - 49) (Index.emotionHistory s)
        ++ [fallbackEmotionDetection w video];
      Index.videoElement := Some video |}).
Proof.
  intros Hv. unfold Index.detectEmotion. rewrite Hv.
  cbn [detectEmotionWithFallback]. rewrite slice_last_49. reflexivity.
Qed.

(** Entries in front of 50 or more others do not reach the last 50. *)
Lemma drop_last_50_prefix {A : Type} (front kept : list A) :
  front = [] \/ 50 <= List.length kept ->
  drop (List.length (front ++ kept) - 50) (front ++ kept) =
  drop (List.length kept - 50) kept.
Proof.
  intros [->|Hlen]; [reflexivity|].
  rewrite length_app.
  replace (List.length front + List.length kept - 50)
    with (List.length front + (List.length kept - 50)) by lia.
  apply drop_app_add.
Qed.

(** Dropping all but the last 50 of a list that grew by one entry. *)
Lemma drop_last_50_snoc {A : Type} (h rest : list A) (x : A) :
  drop (List.length ((drop (List.length h - 49) h ++ [x]) ++ rest) - 50)
       ((drop (List.length h - 49) h ++ [x]) ++ rest) =
  drop (List.length (h ++ x :: rest) - 50) (h ++ x :: rest).
Proof.
  set (kept := (drop (List.length h - 49) h ++ [x]) ++ rest).
  assert (h ++ x :: rest = take (List.length h - 49) h ++ kept) as ->.
  { unfold kept. rewrite <- !app_assoc. cbn [app].
    rewrite app_assoc, take_drop. reflexivity. }
  symmetry. apply drop_last_50_prefix.
  destruct (decide (List.length h <= 49)) as [Hle|Hgt].
  - left. replace (List.length h - 49) with 0 by lia. apply take_0.
  - right. unfold kept. rewrite !length_app, length_drop. simpl. lia.
Qed.

(** The ticks do not touch the service. *)
Lemma tick_service (w : world) (service : t) (s : Index.state) :
  fst (Index.detectEmotion w service s) = service.
Proof.
  unfold Index.detectEmotion. destruct (Index.videoElement s); reflexivity.
Qed.

Lemma ticks_service (ws : list world) (service : t) (s : Index.state) :
  fst (Index.ticks ws service s) = service.
Proof.
  revert s. induction ws as [|w ws IH]; intros s; cbn [Index.ticks];
    [reflexivity|].
  pose proof (tick_service w service s) as Hsvc.
  destruct (Index.detectEmotion w service s) as [service' s'].
  cbn [fst] in Hsvc. subst service'. apply IH.
Qed.

Lemma ticks_snoc (ws : list world) (w : world) (service : t) (s : Index.state) :
  Index.ticks (ws ++ [w]) service s =
  Index.detectEmotion w service (snd (Index.ticks ws service s)).
Proof.
  revert s. induction ws as [|w0 ws IH]; intros s; cbn [app Index.ticks snd].
  - destruct (Index.detectEmotion w service s). reflexivity.
  - pose proof (tick_service w0 service s) as Hsvc.
    destruct (Index.detectEmotion w0 service s) as [service' s'].
    cbn [fst] in Hsvc. subst service'. apply IH.
Qed.

Lemma ticks_history (ws : list world) (service : t) (s : Index.state) :
  Index.videoElement s = Some video ->
  List.length (Index.emotionHistory s) <= 50 ->
  let predictions := map (fun w => fallbackEmotionDetection w video) ws in
  let s' := snd (Index.ticks ws service s) in
  Index.emotionHistory s' =
    drop (List.length (Index.emotionHistory s ++ predictions) - 50)
         (Index.emotionHistory s ++ predictions) /\
  Index.currentEmotion s' =
    match last predictions with
    | Some p => Some p
    | None => Index.currentEmotion s
    end.
Proof.
  revert s. induction ws as [|w ws IH]; intros s Hv Hlen; cbn zeta.
  - cbn [Index.ticks map snd last]. rewrite app_nil_r.
    replace (List.length (Index.emotionHistory s) - 50) with 0 by lia.
    split; reflexivity.
  - cbn [Index.ticks]. rewrite (tick_appends w service s Hv).
    set (s1 := {| Index.currentEmotion := _ |}).
    assert (List.length (Index.emotionHistory s1) <= 50) as Hlen1.
    { unfold s1. cbn [Index.emotionHistory].
      rewrite length_app, length_drop. simpl. lia. }
    destruct (IH s1 eq_refl Hlen1) as [Hhist Hcur].
    split.
    + rewrite Hhist. unfold s1. cbn [Index.emotionHistory map].
      apply drop_last_50_snoc.
    + rewrite Hcur. cbn [map]. rewrite last_cons.
      destruct (last (map (fun w0 => fallbackEmotionDetection w0 video) ws));
        reflexivity.
Qed.

End History.

(** C5: with a video attached, every tick makes the prediction it gets
    the current emotion and appends it to the history after cutting the
    history down to its last 49 entries; so after any number of ticks
    the history is the last 50 of the predictions made, in the order
    they were made, never more than 50 long, and the current emotion is
    the last prediction made. *)
Theorem history_keeps_last_50 (ws : list world) (w : world) (service : t)
    (video : source) :
  let predictions := map (fun w => fallbackEmotionDetection w video) ws in
  let s := snd (Index.ticks ws service (Index.handleVideoReady video Index.initial)) in
  let s' := snd (Index.detectEmotion w service s) in
  (List.length (Index.emotionHistory s) <= 50)%nat /\
  List.length (Index.emotionHistory s) = Nat.min 50 (List.length predictions) /\
  Index.emotionHistory s = drop (List.length predictions - 50) predictions /\
  Index.currentEmotion s = last predictions /\
  Index.currentEmotion s' = Some (fallbackEmotionDetection w video) /\
  last (Index.emotionHistory s') = Some (fallbackEmotionDetection w video) /\
  Index.emotionHistory s' =
    drop (List.length (predictions ++ [fallbackEmotionDetection w video]) - 50)
         (predictions ++ [fallbackEmotionDetection w video]).
Proof.
  intros predictions s s'.
  destruct (ticks_history video ws service
              (Index.handleVideoReady video Index.initial) eq_refl)
    as [Hhist Hcur]; [simpl; lia|].
  cbn [Index.handleVideoReady Index.initial Index.emotionHistory
       Index.currentEmotion app] in Hhist, Hcur.
  fold predictions in Hhist, Hcur. fold s in Hhist, Hcur.
  destruct (ticks_history video (ws ++ [w]) service
              (Index.handleVideoReady video Index.initial) eq_refl)
    as [Hhist' Hcur']; [simpl; lia|].
  assert (snd (Index.ticks (ws ++ [w]) service
                 (Index.handleVideoReady video Index.initial)) = s') as Hs'
      by (rewrite ticks_snoc; reflexivity).
  rewrite Hs' in Hhist', Hcur'.
  cbn [Index.handleVideoReady Index.initial Index.emotionHistory
       Index.currentEmotion app] in Hhist', Hcur'.
  rewrite map_app in Hhist', Hcur'. cbn [map] in Hhist', Hcur'.
  fold predictions in Hhist', Hcur'.
  rewrite last_snoc in Hcur'.
  assert (Index.emotionHistory s = drop (List.length predictions - 50) predictions)
    as Hs by exact Hhist.
  split; [rewrite Hs, length_drop; lia|].
  split; [rewrite Hs, length_drop; lia|].
  split; [exact Hs|].
  split; [rewrite Hcur; destruct (last predictions); reflexivity|].
  split; [exact Hcur'|].
  split; [|exact Hhist'].
  rewrite Hhist'.
  rewrite drop_app_le by (rewrite length_app; simpl; lia).
  apply last_snoc.
Qed.


(** ** More on the model loader *)

Section LoaderFacts.

Variable w : world.

Lemma after_call_ready (this : t) (c : call) :
  isInitialized this = true -> after_call this (w, c) = this.
Proof.
  intros Hready. unfold after_call. cbn [fst snd].
  destruct c as [|imageElement|imageElement].
  - unfold initialize. rewrite Hready. reflexivity.
  - unfold detectEmotion, ensureInitialized. rewrite Hready. reflexivity.
  - reflexivity.
Qed.

(** The loop stops at the first option that loads. *)
Lemma try_models_first (front back : list ModelOption) (option : ModelOption)
    (c : classifier_fn) (this : t) :
  forallb (fails_to_load w) front = true ->
  pipeline w "image-classification" (model option) (device option) = Returned c ->
  try_models w (front ++ option :: back)%list this =
  {| classifier := Some c;
     isInitialized := true;
     isInitializing := isInitializing this |}.
Proof.
  intros Hfront Hload.
  induction front as [|o front IH]; cbn [app try_models].
  - rewrite Hload. reflexivity.
  - cbn [forallb] in Hfront. apply andb_prop in Hfront as [Ho Hfront].
    unfold fails_to_load in Ho.
    destruct (pipeline w "image-classification" (model o) (device o));
      [discriminate|]. exact (IH Hfront).
Qed.

(** The loop either leaves the service as it is, when every option
    fails, or adopts a classifier and sets [isInitialized]. *)
Lemma try_models_cases (options : list ModelOption) (this : t) :
  (forallb (fails_to_load w) options = true /\ try_models w options this = this) \/
  (forallb (fails_to_load w) options = false /\
   exists c, try_models w options this =
             {| classifier := Some c;
                isInitialized := true;
                isInitializing := isInitializing this |}).
Proof.
  induction options as [|o options IH]; cbn [forallb try_models].
  - left. split; reflexivity.
  - unfold fails_to_load at 1 3.
    destruct (pipeline w "image-classification" (model o) (device o)) as [c|e].
    + right. split; [reflexivity|]. exists c. reflexivity.
    + cbn [andb]. exact IH.
Qed.

Lemma snd_detectEmotion (this : t) (imageElement : source) :
  snd (detectEmotion w this imageElement) = snd (ensureInitialized w this).
Proof.
  unfold detectEmotion.
  destruct (ensureInitialized w this) as [[[]|e] this']; reflexivity.
Qed.

End LoaderFacts.

(** X1: once a model is loaded nothing replaces it: on a service whose
    [isInitialized] is set, [initialize] returns at once, and
    [detectEmotion] and [detectEmotionWithFallback] leave the fields
    alone; after any run of calls, in any worlds, the service is the
    same and [isReady()] is true. *)
Theorem ready_service_is_kept (calls : list (world * call)) (this : t) :
  isInitialized this = true ->
  after_calls calls this = this /\ isReady (after_calls calls this) = true.
Proof.
  intros Hready.
  assert (after_calls calls this = this) as Hkept.
  { unfold after_calls. induction calls as [|[w c] calls IH]; cbn [fold_left];
      [reflexivity|].
    rewrite (after_call_ready w this c Hready). exact IH. }
  rewrite Hkept. split; [reflexivity|exact Hready].
Qed.

Lemma ready_service_is_kept_witness :
  isReady (after_calls [ (offline 2000 0, Initialize);
                         (offline 4000 0, DetectEmotion webcam) ]
             (loaded failing)) = true.
Proof.
  exact (proj2 (ready_service_is_kept
                  [ (offline 2000 0, Initialize);
                    (offline 4000 0, DetectEmotion webcam) ]
                  (loaded failing) eq_refl)).
Defined.

(** X2: [initialize] tries the options in the order of the list and
    adopts the first that loads: if the options in front of one all
    fail and that one loads a classifier, the call returns normally
    with that classifier in place, [isInitialized] set and
    [isInitializing] cleared; the options behind it are not looked at. *)
Theorem initialize_adopts_first_loadable (w : world) (this : t)
    (front back : list ModelOption) (option : ModelOption) (c : classifier_fn) :
  isInitialized this = false ->
  isInitializing this = false ->
  modelOptions = (front ++ option :: back)%list ->
  forallb (fails_to_load w) front = true ->
  pipeline w "image-classification" (model option) (device option) = Returned c ->
  initialize w this =
  (Returned tt,
   {| classifier := Some c; isInitialized := true; isInitializing := false |}).
Proof.
  intros Hinit Hbusy Hsplit Hfront Hload. unfold initialize.
  rewrite Hinit, Hbusy. cbn [orb]. rewrite Hsplit.
  rewrite (try_models_first w front back option c _ Hfront Hload).
  reflexivity.
Qed.

Lemma initialize_adopts_first_loadable_witness :
  initialize (webgpu_only (result "happy" (JNum (Fin 1))) 0 0) new =
  (Returned tt, loaded (answering (result "happy" (JNum (Fin 1))))).
Proof.
  exact (initialize_adopts_first_loadable
           (webgpu_only (result "happy" (JNum (Fin 1))) 0 0) new
           [ {| model := "onnx-community/emotion-ferplus-8"; device := "cpu" |} ]
           [ {| model := "Xenova/distilbert-base-uncased-emotion"; device := "cpu" |} ]
           {| model := "onnx-community/emotion-ferplus-8"; device := "webgpu" |}
           (answering (result "happy" (JNum (Fin 1))))
           eq_refl eq_refl eq_refl eq_refl eq_refl).
Defined.

(** X3: on a service that is neither initialised nor initialising,
    [initialize] throws exactly when every option of the list fails,
    and the error is then the aggregate one; otherwise it returns
    normally and [isReady()] is true.  Either way [isInitializing] is
    cleared when the call ends. *)
Theorem initialize_throws_iff_all_fail (w : world) (this : t) :
  isInitialized this = false ->
  isInitializing this = false ->
  (fst (initialize w this) = Thrown AllFailed <-> all_candidates_fail w = true) /\
  (fst (initialize w this) = Returned tt <-> all_candidates_fail w = false) /\
  (isReady (snd (initialize w this)) = negb (all_candidates_fail w)) /\
  isInitializing (snd (initialize w this)) = false.
Proof.
  intros Hinit Hbusy. unfold initialize. rewrite Hinit, Hbusy. cbn [orb].
  set (this1 := {| classifier := classifier this |}).
  change (all_candidates_fail w) with (forallb (fails_to_load w) modelOptions).
  destruct (try_models_cases w modelOptions this1) as [[Hall ->]|[Hsome [c ->]]].
  - rewrite Hall. cbn. repeat split; intros; try reflexivity; discriminate.
  - rewrite Hsome. cbn. repeat split; intros; try reflexivity; discriminate.
Qed.

Lemma initialize_throws_iff_all_fail_witness :
  fst (initialize (offline 0 0) new) = Thrown AllFailed /\
  isReady (snd (initialize (webgpu_only JNull 0 0) new)) = true.
Proof.
  split.
  - apply (proj1 (initialize_throws_iff_all_fail (offline 0 0) new eq_refl eq_refl)).
    reflexivity.
  - exact (proj1 (proj2 (proj2 (initialize_throws_iff_all_fail
                                  (webgpu_only JNull 0 0) new eq_refl eq_refl)))).
Defined.

(** The fields as the suspended load and its caller see them. *)
Lemma async_step_consistent (s : Async.t) (e : Async.event) :
  Async.consistent s -> Async.consistent (Async.step s e).
Proof.
  intros Hs. pose proof Hs as (Hbusy & Hready & Hleft).
  destruct e as [|r]; unfold Async.step.
  - destruct (isInitialized (Async.fields s)) eqn:Hinit; cbn [orb]; [exact Hs|].
    destruct (isInitializing (Async.fields s)) eqn:Hb; [exact Hs|].
    unfold Async.next_option, modelOptions. cbn.
    split; [split; eauto|]. split; [|discriminate].
    rewrite <- Hready. split; intros H; discriminate H.
  - destruct (Async.pending s) as [[|option rest]|] eqn:Hp; [exact Hs| |exact Hs].
    destruct r as [c|e].
    + cbn. split; [|split; [|discriminate]].
      * split; [discriminate|]. intros [x Hx]. discriminate Hx.
      * split; eauto.
    + assert (isInitializing (Async.fields s) = true) as Hb
          by (apply Hbusy; eauto).
      destruct rest as [|option' rest']; cbn.
      * split; [|split; [exact Hready|discriminate]].
        split; [discriminate|]. intros [x Hx]. discriminate Hx.
      * split; [|split; [exact Hready|discriminate]].
        split; eauto.
Qed.

Lemma async_run_consistent (events : list Async.event) (s : Async.t) :
  Async.consistent s -> Async.consistent (Async.run events s).
Proof.
  unfold Async.run. revert s.
  induction events as [|e events IH]; intros s Hs; cbn [fold_left]; [exact Hs|].
  apply IH, async_step_consistent, Hs.
Qed.

(** Run without anything in between, the steps of a load end in the
    fields that [initialize] computes. *)
Lemma async_settles (w : world) (options : list ModelOption) (f : t) :
  isInitialized f = false ->
  Async.fields (Async.run (Async.settles w options) (Async.next_option f options)) =
  {| classifier := classifier (try_models w options f);
     isInitialized := isInitialized (try_models w options f);
     isInitializing := false |} /\
  Async.pending (Async.run (Async.settles w options) (Async.next_option f options)) =
  None.
Proof.
  intros Hinit. unfold Async.run.
  induction options as [|option rest IH]; cbn [Async.settles try_models].
  - cbn. rewrite Hinit. split; reflexivity.
  - destruct (pipeline w "image-classification" (model option) (device option))
      as [c|e]; cbn [fold_left Async.step Async.next_option Async.pending
                     Async.fields].
    + cbn. split; reflexivity.
    + exact IH.
Qed.

Lemma async_load (w : world) :
  Async.run (Async.Call :: Async.settles w modelOptions) Async.start =
  {| Async.fields := snd (initialize w new); Async.pending := None |}.
Proof.
  change (Async.run (Async.Call :: Async.settles w modelOptions) Async.start)
    with (Async.run (Async.settles w modelOptions)
            (Async.next_option
               {| classifier := None; isInitialized := false;
                  isInitializing := true |} modelOptions)).
  destruct (async_settles w modelOptions
              {| classifier := None; isInitialized := false; isInitializing := true |}
              eq_refl) as [Hf Hp].
  destruct (Async.run (Async.settles w modelOptions)
              (Async.next_option
                 {| classifier := None; isInitialized := false;
                    isInitializing := true |} modelOptions)) as [f p].
  cbn [Async.fields Async.pending] in Hf, Hp. subst f p. reflexivity.
Qed.

(** X4: also when calls overlap, the fields stay consistent at every
    point where other code can run: [isInitializing] is set exactly
    while a load is suspended at an [await], [isReady()] is true exactly
    when a classifier is in place, and a call of [initialize] that
    arrives while a load is suspended changes nothing, so that one load
    runs at a time.  A load that runs with nothing in between ends in
    the fields that [initialize] computes. *)
Theorem overlapping_calls_keep_fields_consistent (events : list Async.event)
    (w : world) :
  let s := Async.run events Async.start in
  (isInitializing (Async.fields s) = true <-> is_Some (Async.pending s)) /\
  (isReady (Async.fields s) = true <-> is_Some (classifier (Async.fields s))) /\
  (is_Some (Async.pending s) -> Async.step s Async.Call = s) /\
  Async.run (Async.Call :: Async.settles w modelOptions) Async.start =
  {| Async.fields := snd (initialize w new); Async.pending := None |}.
Proof.
  intros s.
  assert (Async.consistent s) as (Hbusy & Hready & _).
  { apply async_run_consistent. unfold Async.consistent, Async.start. cbn.
    split; [|split; [|discriminate]].
    - split; [discriminate|]. intros [x Hx]. discriminate Hx.
    - split; [discriminate|]. intros [x Hx]. discriminate Hx. }
  split; [exact Hbusy|]. split; [exact Hready|]. split.
  - intros Hp. apply Hbusy in Hp. unfold Async.step. rewrite Hp.
    rewrite orb_true_r. reflexivity.
  - exact (async_load w).
Qed.

(** X5: a call of [detectEmotion] that arrives while a load is in
    flight starts no second load: [initialize] returns at once, there
    is no classifier to call yet, and the call answers [null] and
    leaves the service as it was, whatever the world. *)
Theorem detectEmotion_while_loading (w : world) (this : t)
    (imageElement : source) :
  isInitialized this = false ->
  isInitializing this = true ->
  classifier this = None ->
  detectEmotion w this imageElement = (Returned None, this).
Proof.
  intros Hinit Hbusy Hnone.
  unfold detectEmotion, ensureInitialized, initialize.
  rewrite Hinit, Hbusy. cbn [negb orb]. unfold detect_frame.
  destruct (captureFrame w imageElement) as [imageData|e]; [|reflexivity].
  cbn [bind]. unfold call_classifier. rewrite Hnone. reflexivity.
Qed.

Lemma detectEmotion_while_loading_witness :
  detectEmotion (online (result "happy" (JNum (Fin 1))) 0 0) loading webcam =
  (Returned None, loading).
Proof.
  exact (detectEmotion_while_loading
           (online (result "happy" (JNum (Fin 1))) 0 0) loading webcam
           eq_refl eq_refl eq_refl).
Defined.

(** ** More on the primary path *)

(** X6: once the initialisation has gone through, the frame is captured
    and the classifier has answered, [detectEmotion] returns a
    prediction exactly when the answer is a non-empty array whose first
    entry is an object with a string [label]; the prediction then
    carries the time of the call, the clamped score of that entry and
    the emotion its label maps to. *)
Theorem detectEmotion_answers_iff_conforming (w : world) (this this' : t)
    (imageElement : source) (imageData : string) (results : jsval) :
  ensureInitialized w this = (Returned tt, this') ->
  captureFrame w imageElement = Returned imageData ->
  call_classifier this' imageData = Returned results ->
  ((exists p, fst (detectEmotion w this imageElement) = Returned (Some p)) <->
   conforming results = true) /\
  (forall p,
      fst (detectEmotion w this imageElement) = Returned (Some p) ->
      timestamp p = Date_now w /\
      confidence p = clampConfidence w (top_score results) /\
      exists label,
        JS.get (JS.first results) "label" = Returned (JStr label) /\
        emotion p = mapEmotion (JS.toLowerCase label)).
Proof.
  intros Hinit Hframe Hcall.
  rewrite (detectEmotion_answered w this this' imageElement imageData results
             Hinit Hframe Hcall). cbn [fst].
  split.
  - split.
    + intros [p Hp]. destruct (conforming results) eqn:Hc; [reflexivity|].
      rewrite (readResults_nonconforming w results Hc) in Hp. discriminate Hp.
    + intros Hc. destruct (readResults_conforming w results Hc) as [p Hp].
      exists p. rewrite Hp. reflexivity.
  - intros p Hp.
    destruct (readResults w results) as [r|e] eqn:Hread; cbn [try_catch] in Hp;
      [|discriminate].
    injection Hp as ->.
    split; [|split].
    + revert Hread. unfold readResults.
      destruct (JS.truthy results && JS.isArray results && (0 <? JS.length results));
        [|discriminate].
      destruct (JS.get (JS.first results) "label") as [l|]; [|discriminate].
      cbn [bind]. destruct (JS.call_toLowerCase l) as [key|]; [|discriminate].
      cbn [bind]. destruct (JS.get (JS.first results) "score") as [sc|];
        [|discriminate].
      cbn [bind]. intros [= <-]. reflexivity.
    + exact (readResults_confidence w results p Hread).
    + revert Hread. unfold readResults.
      destruct (JS.truthy results && JS.isArray results && (0 <? JS.length results));
        [|discriminate].
      destruct (JS.get (JS.first results) "label") as [l|]; [|discriminate].
      cbn [bind]. destruct l as [| | | |label| | |]; try discriminate.
      cbn [JS.call_toLowerCase bind].
      destruct (JS.get (JS.first results) "score") as [sc|]; [|discriminate].
      cbn [bind]. intros [= <-]. exists label. split; reflexivity.
Qed.

Lemma detectEmotion_answers_iff_conforming_witness :
  exists p,
    fst (detectEmotion (offline 7 0)
           (loaded (answering (result "Sadness" (JNum (Fin (1 # 4))))))
           webcam) = Returned (Some p) /\
    timestamp p = 7.
Proof.
  pose proof (detectEmotion_answers_iff_conforming (offline 7 0)
                (loaded (answering (result "Sadness" (JNum (Fin (1 # 4))))))
                (loaded (answering (result "Sadness" (JNum (Fin (1 # 4))))))
                webcam "data:image/jpeg;base64,"
                (result "Sadness" (JNum (Fin (1 # 4))))
                eq_refl eq_refl eq_refl) as [[_ Hex] Hfields].
  destruct (Hex eq_refl) as [p Hp].
  exists p. split; [exact Hp|]. exact (proj1 (Hfields p Hp)).
Defined.

(** X7: apart from the two inherited names, the emotion of a prediction
    read from a result set is one of the seven labels: the entry of the
    table for the label in lower case when there is one, and [neutral]
    for every label the table does not hold. *)
Theorem normalised_label_is_canonical (w : world) (results : jsval)
    (p : EmotionPrediction) (label : string) :
  readResults w results = Returned (Some p) ->
  JS.get (JS.first results) "label" = Returned (JStr label) ->
  JS.toLowerCase label <> "constructor" ->
  JS.toLowerCase label <> "__proto__" ->
  is_canonical (emotion p) = true /\
  (forall e, emotionMap !! JS.toLowerCase label = Some e -> emotion p = e) /\
  (emotionMap !! JS.toLowerCase label = None -> emotion p = JStr "neutral").
Proof.
  intros Hread Hlabel Hc Hp.
  assert (emotion p = mapEmotion (JS.toLowerCase label)) as ->.
  { revert Hread. unfold readResults.
    destruct (JS.truthy results && JS.isArray results && (0 <? JS.length results));
      [|discriminate].
    rewrite Hlabel. cbn [bind JS.call_toLowerCase].
    destruct (JS.get (JS.first results) "score") as [sc|]; [|discriminate].
    cbn [bind]. intros [= <-]. reflexivity. }
  destruct (mapEmotion_canonical label Hc Hp) as [Hcanon Hneutral].
  split; [exact Hcanon|]. split; [|exact Hneutral].
  intros e He. unfold mapEmotion, JS.get_literal, JS.or. rewrite He.
  rewrite (emotionMap_truthy _ _ He). reflexivity.
Qed.

Lemma normalised_label_is_canonical_witness :
  readResults (offline 7 0) (result "FEARFUL" (JNum (Fin (3 # 4)))) =
    Returned (Some {| emotion := JStr "fear";
                      confidence := Fin (3 # 4);
                      timestamp := 7 |}) /\
  is_canonical (JStr "fear") = true.
Proof.
  split; [reflexivity|].
  exact (proj1 (normalised_label_is_canonical (offline 7 0)
                  (result "FEARFUL" (JNum (Fin (3 # 4))))
                  {| emotion := JStr "fear";
                     confidence := Fin (3 # 4);
                     timestamp := 7 |}
                  "FEARFUL" eq_refl eq_refl
                  ltac:(vm_compute; discriminate)
                  ltac:(vm_compute; discriminate))).
Defined.

(** X8: the normaliser is idempotent: the label it gives, given back
    to it as a raw label, comes out unchanged. *)
Theorem mapEmotion_idempotent (label e : string) :
  JS.toLowerCase label <> "constructor" ->
  JS.toLowerCase label <> "__proto__" ->
  mapEmotion (JS.toLowerCase label) = JStr e ->
  mapEmotion (JS.toLowerCase e) = JStr e.
Proof.
  intros Hc Hp He.
  destruct (mapEmotion_canonical label Hc Hp) as [Hcanon _].
  rewrite He in Hcanon. cbn [is_canonical] in Hcanon.
  apply bool_decide_eq_true in Hcanon. unfold canonical in Hcanon.
  repeat (apply elem_of_cons in Hcanon as [->|Hcanon]; [reflexivity|]).
  apply elem_of_nil in Hcanon. contradiction.
Qed.

Lemma mapEmotion_idempotent_witness :
  mapEmotion (JS.toLowerCase "Contempt") = JStr "disgust" /\
  mapEmotion (JS.toLowerCase "disgust") = JStr "disgust".
Proof.
  split; [reflexivity|].
  exact (mapEmotion_idempotent "Contempt" "disgust"
           ltac:(vm_compute; discriminate) ltac:(vm_compute; discriminate)
           eq_refl).
Defined.

(** ** More on the frame extractor *)

(** X9: the canvas is never smaller than 224 on a side, and never
    smaller than the source: the frame is drawn at its own size or
    enlarged, not reduced. *)
Theorem canvas_covers_source (imageElement : source) :
  (224 <= canvas_width imageElement)%N /\
  (224 <= canvas_height imageElement)%N /\
  (intrinsic_width imageElement <= canvas_width imageElement)%N /\
  (intrinsic_height imageElement <= canvas_height imageElement)%N.
Proof.
  destruct imageElement as [vw vh|iw ih|cw ch];
    unfold canvas_width, canvas_height, intrinsic_width, intrinsic_height,
      or_default;
    repeat split;
    repeat match goal with
           | |- context [(?x =? 0)%N] => destruct (N.eqb_spec x 0)
           end; lia.
Qed.

(** X10: the frame is encoded as JPEG, and as PNG when the JPEG encoder
    throws.  Capturing fails exactly when there is no 2d context, when
    drawing throws, or when both encoders throw; it never fails on the
    JPEG encoder alone. *)
Theorem captureFrame_outcomes (w : world) (imageElement : source) :
  let width := canvas_width imageElement in
  let height := canvas_height imageElement in
  let jpeg := toDataURL w "image/jpeg" imageElement width height in
  let png := toDataURL w "image/png" imageElement width height in
  ((exists e, captureFrame w imageElement = Thrown e) <->
   getContext w = false \/
   (exists e, drawImage w imageElement width height = Thrown e) \/
   ((exists e, jpeg = Thrown e) /\ (exists e, png = Thrown e))) /\
  (forall imageData,
      captureFrame w imageElement = Returned imageData ->
      jpeg = Returned imageData \/
      ((exists e, jpeg = Thrown e) /\ png = Returned imageData)).
Proof.
  intros width height jpeg png. unfold captureFrame.
  fold width height. fold jpeg png.
  destruct (getContext w); cbn [bind].
  - destruct (drawImage w imageElement width height) as [[]|e1]; cbn [bind].
    + destruct jpeg as [data|e2].
      * split.
        -- split.
           ++ intros [e He]. discriminate He.
           ++ intros [H|[[e H]|[[e H] _]]]; discriminate H.
        -- intros imageData [= <-]. left. reflexivity.
      * destruct png as [data|e3].
        -- split.
           ++ split.
              ** intros [e He]. discriminate He.
              ** intros [H|[[e H]|[_ [e H]]]]; discriminate H.
           ++ intros imageData [= <-]. right. eauto.
        -- split.
           ++ split; [|eauto]. intros _. right. right. eauto.
           ++ intros imageData H. discriminate H.
    + split.
      * split; [|eauto]. intros _. right. left. eauto.
      * intros imageData H. discriminate H.
  - split.
    + split; [|eauto]. intros _. left. reflexivity.
    + intros imageData H. discriminate H.
Qed.

(** ** More on the fallback *)

Section FallbackFacts.

(** The seven labels of the fallback sit at seven different places. *)
Lemma at_index_emotions_inj (i j : Z) :
  0 <= i < 7 -> 0 <= j < 7 ->
  at_index emotions (Num.of_Z i) = at_index emotions (Num.of_Z j) -> i = j.
Proof.
  intros Hi Hj. unfold at_index.
  rewrite !to_index_of_Z by lia.
  assert (i = 0 \/ i = 1 \/ i = 2 \/ i = 3 \/ i = 4 \/ i = 5 \/ i = 6) as Ci by lia.
  assert (j = 0 \/ j = 1 \/ j = 2 \/ j = 3 \/ j = 4 \/ j = 5 \/ j = 6) as Cj by lia.
  destruct Ci as [->|[->|[->|[->|[->|[->| ->]]]]]];
    destruct Cj as [->|[->|[->|[->|[->|[->| ->]]]]]];
    vm_compute; intros H; first [reflexivity | discriminate H].
Qed.

Lemma at_index_emotions_canonical (i : Z) :
  0 <= i < 7 -> is_canonical (at_index emotions (Num.of_Z i)) = true.
Proof.
  intros Hi. unfold at_index. rewrite to_index_of_Z by lia.
  assert (i = 0 \/ i = 1 \/ i = 2 \/ i = 3 \/ i = 4 \/ i = 5 \/ i = 6) as Ci by lia.
  destruct Ci as [->|[->|[->|[->|[->|[->| ->]]]]]]; vm_compute; reflexivity.
Qed.

(** Before the epoch the remainder keeps the sign of the time. *)
Lemma emotionIndex_before_epoch (now : Z) :
  now < 0 ->
  Num.floor (Num.rem (Num.div (Num.of_Z now) (Num.of_Z 3000)) (Num.of_Z 7)) =
  Num.of_Z (Z.rem now 21000 / 3000).
Proof.
  intros Hnow. unfold Num.of_Z, Num.div, Num.rem, Num.floor.
  change (Qeq_bool (inject_Z 3000) 0) with false.
  change (Qeq_bool (inject_Z 7) 0) with false.
  cbv iota. do 2 f_equal.
  unfold Qfloor, Num.Qtrunc. cbn.
  f_equal. rewrite !Z.mul_1_r.
  change (Z.pos (1 * 3000 * 7)) with 21000.
  rewrite (Z.rem_eq now 21000) by lia. lia.
Qed.

Lemma to_index_negative (z : Z) : z < 0 -> Num.to_index (Num.of_Z z) = None.
Proof.
  intros Hz. unfold Num.to_index, Num.of_Z. cbv zeta.
  rewrite Qfloor_Z.
  assert ((0 <=? z) = false) as -> by (apply Z.leb_gt; exact Hz).
  rewrite andb_false_r. reflexivity.
Qed.

End FallbackFacts.

(** X11: after the epoch the label of the fallback is decided by the
    number of the 3000 ms window modulo 7, and by nothing else: two
    calls get the same label exactly when their windows agree modulo 7.
    So the label is the same throughout a window, and comes back every
    21000 ms. *)
Theorem fallback_label_by_window (w w' : world) (img img' : source) :
  0 <= Date_now w ->
  0 <= Date_now w' ->
  (emotion (fallbackEmotionDetection w img) =
   emotion (fallbackEmotionDetection w' img') <->
   (Date_now w / 3000) mod 7 = (Date_now w' / 3000) mod 7) /\
  (Date_now w / 3000 = Date_now w' / 3000 ->
   emotion (fallbackEmotionDetection w img) =
   emotion (fallbackEmotionDetection w' img')) /\
  (Date_now w' = Date_now w + 21000 ->
   emotion (fallbackEmotionDetection w img) =
   emotion (fallbackEmotionDetection w' img')).
Proof.
  intros Hnow Hnow'. rewrite !fallback_emotion by assumption.
  assert (0 <= (Date_now w / 3000) mod 7 < 7) as Hi
      by (apply Z.mod_pos_bound; lia).
  assert (0 <= (Date_now w' / 3000) mod 7 < 7) as Hj
      by (apply Z.mod_pos_bound; lia).
  split; [|split].
  - split.
    + apply at_index_emotions_inj; assumption.
    + intros ->. reflexivity.
  - intros ->. reflexivity.
  - intros ->. do 2 f_equal. Z.div_mod_to_equations. lia.
Qed.

Lemma fallback_label_by_window_witness :
  emotion (fallbackEmotionDetection (offline 4000 0) webcam) =
  emotion (fallbackEmotionDetection (offline 25000 (1 # 2)) (HTMLImageElement 10 10)).
Proof.
  exact (proj2 (proj2 (fallback_label_by_window (offline 4000 0)
                         (offline 25000 (1 # 2)) webcam (HTMLImageElement 10 10)
                         ltac:(simpl; lia) ltac:(simpl; lia)))
           eq_refl).
Defined.

(** X12: after the epoch the label of the fallback is always one of the
    seven of the taxonomy, and each of the seven is the label of some
    time of the first 21000 ms. *)
Theorem fallback_labels_are_the_taxonomy (w : world) (img : source) :
  0 <= Date_now w ->
  is_canonical (emotion (fallbackEmotionDetection w img)) = true /\
  (forall e, e ∈ canonical ->
             exists w', 0 <= Date_now w' < 21000 /\
                        emotion (fallbackEmotionDetection w' img) = JStr e).
Proof.
  intros Hnow. split.
  - rewrite fallback_emotion by exact Hnow.
    apply at_index_emotions_canonical. apply Z.mod_pos_bound. lia.
  - intros e He. unfold canonical in He.
    repeat (apply elem_of_cons in He as [->|He];
            [first
               [ exists (offline 0 0); split; [simpl; lia|reflexivity]
               | exists (offline 3000 0); split; [simpl; lia|reflexivity]
               | exists (offline 6000 0); split; [simpl; lia|reflexivity]
               | exists (offline 9000 0); split; [simpl; lia|reflexivity]
               | exists (offline 12000 0); split; [simpl; lia|reflexivity]
               | exists (offline 15000 0); split; [simpl; lia|reflexivity]
               | exists (offline 18000 0); split; [simpl; lia|reflexivity] ]|]).
    apply elem_of_nil in He. contradiction.
Qed.

Lemma fallback_labels_are_the_taxonomy_witness :
  is_canonical (emotion (fallbackEmotionDetection (offline 1000000 0) webcam)) = true.
Proof.
  exact (proj1 (fallback_labels_are_the_taxonomy (offline 1000000 0) webcam
                  ltac:(simpl; lia))).
Defined.

(** X13: when a tick comes no more than 3000 ms, the length of a
    window, after the tick before it, the label of the fallback stays
    or moves on to the next of the cycle; the interval of the page,
    2000 ms, is within that.  The timer may fire late, and a tick that
    comes later than 3000 ms can skip a label: at 0 ms the label is
    [happy], at 6000 ms [surprised], and [neutral] is not seen. *)
Theorem label_advances_by_at_most_one (w w' : world) (img : source) :
  0 <= Date_now w ->
  Date_now w <= Date_now w' <= Date_now w + 3000 ->
  (emotion (fallbackEmotionDetection w' img) =
     emotion (fallbackEmotionDetection w img) \/
   emotion (fallbackEmotionDetection w' img) =
     at_index emotions (Num.of_Z (((Date_now w / 3000) mod 7 + 1) mod 7))) /\
  0 <= Page.pollingInterval <= 3000 /\
  emotion (fallbackEmotionDetection (offline 0 0) img) = JStr "happy" /\
  emotion (fallbackEmotionDetection (offline 3000 0) img) = JStr "neutral" /\
  emotion (fallbackEmotionDetection (offline 6000 0) img) = JStr "surprised".
Proof.
  intros Hnow Hnext. split; [|repeat split; unfold Page.pollingInterval; lia].
  rewrite !fallback_emotion by lia.
  assert (Date_now w' / 3000 = Date_now w / 3000 \/
          Date_now w' / 3000 = Date_now w / 3000 + 1) as [->| ->]
      by (Z.div_mod_to_equations; lia).
  - left. reflexivity.
  - right. do 2 f_equal. rewrite Z.add_mod_idemp_l by lia. reflexivity.
Qed.

Lemma label_advances_by_at_most_one_witness :
  emotion (fallbackEmotionDetection (offline 4000 0) webcam) = JStr "neutral" /\
  (emotion (fallbackEmotionDetection (offline 6500 0) webcam) = JStr "neutral" \/
   emotion (fallbackEmotionDetection (offline 6500 0) webcam) = JStr "surprised").
Proof.
  split; [reflexivity|].
  exact (proj1 (label_advances_by_at_most_one (offline 4000 0) (offline 6500 0)
                  webcam ltac:(simpl; lia) ltac:(simpl; lia))).
Defined.

(** X14: for a clock before the epoch the fallback has no label: the
    remainder is negative, the index is below 0 and the array answers
    [undefined]; only at the multiples of 21000 ms the index is 0 and
    the label [happy]. *)
Theorem fallback_before_epoch (w : world) (img : source) :
  Date_now w < 0 ->
  emotion (fallbackEmotionDetection w img) =
  if Date_now w mod 21000 =? 0 then JStr "happy" else JUndefined.
Proof.
  intros Hnow. unfold fallbackEmotionDetection. cbn [emotion].
  change (Num.of_Z (Z.of_nat (List.length emotions))) with (Num.of_Z 7).
  rewrite emotionIndex_before_epoch by exact Hnow.
  destruct (Z.eqb_spec (Date_now w mod 21000) 0) as [Hz|Hnz].
  - assert (Z.rem (Date_now w) 21000 / 3000 = 0) as ->
        by (Z.to_euclidean_division_equations; lia).
    reflexivity.
  - unfold at_index. rewrite to_index_negative; [reflexivity|].
    Z.to_euclidean_division_equations. lia.
Qed.

Lemma fallback_before_epoch_witness :
  emotion (fallbackEmotionDetection (offline (-1) 0) webcam) = JUndefined /\
  emotion (fallbackEmotionDetection (offline (-21000) 0) webcam) = JStr "happy".
Proof.
  split.
  - exact (fallback_before_epoch (offline (-1) 0) webcam ltac:(simpl; lia)).
  - exact (fallback_before_epoch (offline (-21000) 0) webcam ltac:(simpl; lia)).
Defined.

(** ** More on the page *)

(** X15: while no video is attached the ticks do nothing: the state of
    the page and the service stay as they are, and no prediction is
    asked for. *)
Theorem ticks_without_video (ws : list world) (service : t) (s : Index.state) :
  Index.videoElement s = None ->
  Index.ticks ws service s = (service, s).
Proof.
  intros Hnone. induction ws as [|w ws IH]; cbn [Index.ticks]; [reflexivity|].
  unfold Index.detectEmotion. rewrite Hnone. exact IH.
Qed.

Lemma ticks_without_video_witness :
  Index.ticks [offline 0 0; offline 2000 0] new Index.initial =
  (new, Index.initial).
Proof.
  exact (ticks_without_video [offline 0 0; offline 2000 0] new Index.initial
           eq_refl).
Defined.

(** X16: attaching another video keeps the history and the current
    emotion; the ticks that follow go on appending, so the history is
    the last 50 of all the predictions made, on the first video and on
    the second. *)
Theorem history_survives_reattach (ws1 ws2 : list world) (service : t)
    (video1 video2 : source) :
  let s1 := snd (Index.ticks ws1 service
                   (Index.handleVideoReady video1 Index.initial)) in
  let s2 := snd (Index.ticks ws2 service (Index.handleVideoReady video2 s1)) in
  let predictions :=
    (map (fun w => fallbackEmotionDetection w video1) ws1 ++
     map (fun w => fallbackEmotionDetection w video2) ws2)%list in
  Index.emotionHistory (Index.handleVideoReady video2 s1) = Index.emotionHistory s1 /\
  Index.currentEmotion (Index.handleVideoReady video2 s1) = Index.currentEmotion s1 /\
  Index.emotionHistory s2 = drop (List.length predictions - 50) predictions /\
  Index.currentEmotion s2 = last predictions.
Proof.
  intros s1 s2 predictions.
  destruct (ticks_history video1 ws1 service
              (Index.handleVideoReady video1 Index.initial) eq_refl)
    as [Hhist1 Hcur1]; [simpl; lia|].
  cbn [Index.handleVideoReady Index.initial Index.emotionHistory
       Index.currentEmotion app] in Hhist1, Hcur1.
  fold s1 in Hhist1, Hcur1.
  set (p1 := map (fun w => fallbackEmotionDetection w video1) ws1) in *.
  set (p2 := map (fun w => fallbackEmotionDetection w video2) ws2) in *.
  assert (List.length (Index.emotionHistory s1) <= 50)%nat as Hlen1
      by (rewrite Hhist1, length_drop; lia).
  destruct (ticks_history video2 ws2 service (Index.handleVideoReady video2 s1)
              eq_refl) as [Hhist2 Hcur2]; [exact Hlen1|].
  cbn [Index.handleVideoReady Index.emotionHistory Index.currentEmotion]
    in Hhist2, Hcur2.
  fold s2 in Hhist2, Hcur2. fold p2 in Hhist2, Hcur2.
  split; [reflexivity|]. split; [reflexivity|]. split.
  - rewrite Hhist2, Hhist1. unfold predictions.
    set (kept := (drop (List.length p1 - 50) p1 ++ p2)%list).
    assert ((p1 ++ p2)%list = (take (List.length p1 - 50) p1 ++ kept)%list) as ->.
    { unfold kept. rewrite app_assoc, take_drop. reflexivity. }
    symmetry. apply drop_last_50_prefix.
    destruct (decide (List.length p1 <= 50)%nat) as [Hle|Hgt].
    + left. replace (List.length p1 - 50)%nat with 0%nat by lia. apply take_0.
    + right. unfold kept. rewrite length_app, length_drop. lia.
  - rewrite Hcur2. unfold predictions. rewrite last_app.
    destruct (last p2); [reflexivity|].
    rewrite Hcur1. destruct (last p1); reflexivity.
Qed.

(** X17: when every tick is made after the epoch with a random number
    in [0, 1), every entry of the history, and the current emotion,
    carries one of the seven labels and a confidence between 0.4 and
    0.7. *)
Theorem history_entries_are_valid (ws : list world) (service : t)
    (video : source) :
  Forall valid_world ws ->
  let s := snd (Index.ticks ws service (Index.handleVideoReady video Index.initial)) in
  Forall (fun p => is_canonical (emotion p) = true /\
                   in_fallback_range (confidence p) = true)
         (Index.emotionHistory s) /\
  (forall p, Index.currentEmotion s = Some p ->
             is_canonical (emotion p) = true /\
             in_fallback_range (confidence p) = true).
Proof.
  intros Hvalid s.
  destruct (ticks_history video ws service
              (Index.handleVideoReady video Index.initial) eq_refl)
    as [Hhist Hcur]; [simpl; lia|].
  cbn [Index.handleVideoReady Index.initial Index.emotionHistory
       Index.currentEmotion app] in Hhist, Hcur.
  fold s in Hhist, Hcur.
  assert (Forall (fun p => is_canonical (emotion p) = true /\
                           in_fallback_range (confidence p) = true)
                 (map (fun w => fallbackEmotionDetection w video) ws)) as Hall.
  { apply List.Forall_map. eapply Forall_impl; [exact Hvalid|].
    intros w [Hnow [Hr0 Hr1]]. split.
    - rewrite fallback_emotion by exact Hnow.
      apply at_index_emotions_canonical. apply Z.mod_pos_bound. lia.
    - rewrite fallback_confidence. unfold in_fallback_range, Num.leb.
      apply andb_true_intro. split; apply Qle_bool_iff; lra. }
  split.
  - rewrite Hhist. apply Forall_drop. exact Hall.
  - intros p Hp. rewrite Hcur in Hp.
    destruct (last (map (fun w => fallbackEmotionDetection w video) ws))
      as [q|] eqn:Hlast; [|discriminate].
    injection Hp as ->.
    rewrite Forall_forall in Hall. apply Hall.
    apply last_Some_elem_of. exact Hlast.
Qed.

Lemma history_entries_are_valid_witness :
  Forall (fun p => is_canonical (emotion p) = true /\
                   in_fallback_range (confidence p) = true)
         (Index.emotionHistory
            (snd (Index.ticks [offline 0 (1 # 2); offline 2000 (1 # 4)] new
                    (Index.handleVideoReady webcam Index.initial)))).
Proof.
  assert (Forall valid_world [offline 0 (1 # 2); offline 2000 (1 # 4)]) as Hvalid.
  { repeat constructor; simpl; lia || lra. }
  exact (proj1 (history_entries_are_valid
                  [offline 0 (1 # 2); offline 2000 (1 # 4)] new webcam Hvalid)).
Defined.

(** X18: the entries of the history are in the order of the clock: when
    the clock does not go back from one tick to the next, the
    timestamps of the history do not decrease. *)
Theorem history_timestamps_sorted (ws : list world) (service : t)
    (video : source) :
  StronglySorted Z.le (map Date_now ws) ->
  StronglySorted Z.le
    (map timestamp
       (Index.emotionHistory
          (snd (Index.ticks ws service
                  (Index.handleVideoReady video Index.initial))))).
Proof.
  intros Hsorted.
  destruct (ticks_history video ws service
              (Index.handleVideoReady video Index.initial) eq_refl)
    as [Hhist _]; [simpl; lia|].
  cbn [Index.handleVideoReady Index.initial Index.emotionHistory app] in Hhist.
  rewrite Hhist.
  set (k := (List.length (map (fun w => fallbackEmotionDetection w video) ws) - 50)%nat).
  change (map timestamp (drop k (map (fun w => fallbackEmotionDetection w video) ws)))
    with (timestamp <$> drop k (map (fun w => fallbackEmotionDetection w video) ws)).
  rewrite fmap_drop.
  change (timestamp <$> map (fun w => fallbackEmotionDetection w video) ws)
    with (map timestamp (map (fun w => fallbackEmotionDetection w video) ws)).
  rewrite List.map_map. cbn [fallbackEmotionDetection timestamp].
  rewrite <- (take_drop k (map Date_now ws)) in Hsorted.
  apply StronglySorted_app_1_r in Hsorted. exact Hsorted.
Qed.

Lemma history_timestamps_sorted_witness :
  StronglySorted Z.le
    (map timestamp
       (Index.emotionHistory
          (snd (Index.ticks [offline 0 0; offline 2000 0; offline 4000 0] new
                  (Index.handleVideoReady webcam Index.initial))))).
Proof.
  assert (StronglySorted Z.le
            (map Date_now [offline 0 0; offline 2000 0; offline 4000 0])) as Hs.
  { repeat constructor; simpl; lia. }
  exact (history_timestamps_sorted [offline 0 0; offline 2000 0; offline 4000 0]
           new webcam Hs).
Defined.

(** X19: the page sets [isModelReady] on mount before the load has
    begun and whatever comes of it: the rejection of [initialize] is
    caught, and the flag is true also when no model loads and
    [isReady()] is false. *)
Theorem initModel_ready_flag (w : world) (service : t) :
  isInitialized service = false ->
  isInitializing service = false ->
  snd (fst (Page.initModel w service)) = true /\
  fst (fst (Page.initModel w service)) = snd (initialize w service) /\
  isReady (fst (fst (Page.initModel w service))) = negb (all_candidates_fail w).
Proof.
  intros Hinit Hbusy. unfold Page.initModel. cbn [fst snd].
  split; [reflexivity|]. split; [reflexivity|].
  unfold initialize. rewrite Hinit, Hbusy. cbn [orb snd].
  change (all_candidates_fail w) with (forallb (fails_to_load w) modelOptions).
  destruct (try_models_cases w modelOptions
              {| classifier := classifier service;
                 isInitialized := false;
                 isInitializing := true |}) as [[-> ->]|[-> [c ->]]];
    reflexivity.
Qed.

Lemma initModel_ready_flag_witness :
  snd (fst (Page.initModel (offline 0 0) new)) = true /\
  isReady (fst (fst (Page.initModel (offline 0 0) new))) = false.
Proof.
  pose proof (initModel_ready_flag (offline 0 0) new eq_refl eq_refl)
    as (Hflag & _ & Hready).
  split; [exact Hflag | exact Hready].
Defined.

(** ** The dashboard *)

Section Counts.

Import EmotionDashboard.

Variable rt : runtime.

Local Open Scope nat_scope.

Lemma getEmotionCounts_snoc (h : list EmotionData) (data : EmotionData) :
  getEmotionCounts rt (h ++ [data])%list = count_step rt (getEmotionCounts rt h) data.
Proof. unfold getEmotionCounts. rewrite fold_left_app. reflexivity. Qed.

Lemma occurrences_snoc (key : string) (h : list EmotionData) (data : EmotionData) :
  occurrences key (h ++ [data])%list =
  occurrences key h + (if decide (emotion data = key) then 1 else 0).
Proof.
  unfold occurrences. rewrite filter_app, length_app. f_equal.
  rewrite filter_cons, filter_nil.
  destruct (decide (emotion data = key)); reflexivity.
Qed.

Lemma occurrences_cons (key : string) (h : list EmotionData) (data : EmotionData) :
  occurrences key (data :: h) =
  (if decide (emotion data = key) then 1 else 0) + occurrences key h.
Proof.
  unfold occurrences. rewrite filter_cons.
  destruct (decide (emotion data = key)); reflexivity.
Qed.

(** One more on a count that is a whole number. *)
Lemma plus_one_count (n : Z) :
  plus_one rt (JNum (Num.of_Z n)) = JNum (Num.of_Z (n + 1)).
Proof.
  unfold plus_one, Num.of_Z, Num.add, Num.one, inject_Z, Qplus. cbn.
  do 3 f_equal. lia.
Qed.

Lemma count_truthy (n : Z) :
  (0 < n)%Z -> JS.truthy (JNum (Num.of_Z n)) = true.
Proof.
  intros Hn. unfold JS.truthy, Num.of_Z, Num.is_zero.
  destruct (Qeq_bool (inject_Z n) 0) eqn:E; [|reflexivity].
  apply Qeq_bool_iff in E. unfold Qeq, inject_Z in E. cbn in E. lia.
Qed.

(** What the table holds after a history of plain labels. *)
Lemma getEmotionCounts_lookup (h : list EmotionData) (key : string) :
  plain_labels h ->
  getEmotionCounts rt h !! key =
  if occurrences key h =? 0 then None
  else Some (JNum (Num.of_Z (Z.of_nat (occurrences key h)))).
Proof.
  induction h as [|data h IH] using rev_ind; intros Hplain.
  - reflexivity.
  - apply Forall_app in Hplain as [Hplain Hdata].
    apply (proj1 (Forall_singleton _ _)) in Hdata. cbv beta in Hdata.
    specialize (IH Hplain).
    rewrite getEmotionCounts_snoc, occurrences_snoc. unfold count_step.
    assert (String.eqb (emotion data) "__proto__" = false) as ->.
    { destruct (String.eqb_spec (emotion data) "__proto__") as [E|]; [|reflexivity].
      rewrite E in Hdata. vm_compute in Hdata. discriminate Hdata. }
    destruct (decide (emotion data = key)) as [<-|Hne].
    + rewrite lookup_insert_eq.
      replace (occurrences (emotion data) h + 1 =? 0) with false
        by (symmetry; apply Nat.eqb_neq; lia).
      f_equal. unfold JS.get_literal. rewrite IH.
      destruct (occurrences (emotion data) h) as [|n] eqn:Hocc.
      * cbn [Nat.eqb]. unfold JS.inherited. rewrite Hdata. reflexivity.
      * cbn [Nat.eqb]. unfold JS.or. rewrite count_truthy by lia.
        rewrite plus_one_count. do 2 f_equal. lia.
    + rewrite lookup_insert_ne by exact Hne. rewrite IH.
      rewrite Nat.add_0_r. reflexivity.
Qed.

(** Over keys that are all different and hold every emotion of the
    history, the occurrences add up to the length of the history. *)
Lemma sum_indicator (x : string) (keys : list string) :
  NoDup keys -> x ∈ keys ->
  foldr Z.add 0%Z (map (fun k => if decide (x = k) then 1%Z else 0%Z) keys) = 1%Z.
Proof.
  induction 1 as [|k keys Hk Hnd IH]; intros Hx.
  - apply elem_of_nil in Hx. contradiction.
  - cbn [map foldr]. apply elem_of_cons in Hx as [->|Hx].
    + destruct (decide (k = k)) as [_|Hne]; [|contradiction].
      assert (foldr Z.add 0%Z
                (map (fun k0 => if decide (k = k0) then 1%Z else 0%Z) keys) = 0%Z)
        as ->; [|reflexivity].
      clear IH Hnd. induction keys as [|k' keys IHk]; [reflexivity|].
      cbn [map foldr]. apply not_elem_of_cons in Hk as [Hne Hk].
      destruct (decide (k = k')) as [E|_]; [contradiction|].
      rewrite (IHk Hk). reflexivity.
    + destruct (decide (x = k)) as [->|_]; [contradiction|].
      rewrite (IH Hx). reflexivity.
Qed.

Lemma sum_occurrences (keys : list string) (h : list EmotionData) :
  NoDup keys ->
  Forall (fun data => emotion data ∈ keys) h ->
  foldr Z.add 0%Z (map (fun k => Z.of_nat (occurrences k h)) keys) =
  Z.of_nat (List.length h).
Proof.
  intros Hnd Hall. induction Hall as [|data h Hdata Hall IH].
  - clear Hnd. induction keys as [|k keys IHk]; [reflexivity|].
    cbn [map foldr]. rewrite IHk. reflexivity.
  - assert (forall l : list string,
               foldr Z.add 0%Z (map (fun k => Z.of_nat (occurrences k (data :: h))) l) =
               (foldr Z.add 0%Z
                  (map (fun k => if decide (emotion data = k) then 1%Z else 0%Z) l) +
                foldr Z.add 0%Z (map (fun k => Z.of_nat (occurrences k h)) l))%Z)
      as Hsplit.
    { induction l as [|k l IHl]; [reflexivity|].
      cbn [map foldr]. rewrite IHl, occurrences_cons.
      destruct (decide (emotion data = k)); lia. }
    rewrite Hsplit, IH, (sum_indicator _ _ Hnd Hdata). cbn [List.length]. lia.
Qed.

End Counts.

(** X20: for a history in which no emotion bears the name of a member
    of [Object.prototype], the table of [getEmotionCounts] holds, under
    each emotion of the history, the number of entries with that
    emotion, and nothing under any other key. *)
Theorem counts_are_occurrences (rt : EmotionDashboard.runtime)
    (h : list EmotionDashboard.EmotionData) (key : string) :
  EmotionDashboard.plain_labels h ->
  (EmotionDashboard.getEmotionCounts rt h !! key =
   if (EmotionDashboard.occurrences key h =? 0)%nat then None
   else Some (JNum (Num.of_Z (Z.of_nat (EmotionDashboard.occurrences key h))))) /\
  (is_Some (EmotionDashboard.getEmotionCounts rt h !! key) <->
   exists data, data ∈ h /\ EmotionDashboard.emotion data = key).
Proof.
  intros Hplain.
  pose proof (getEmotionCounts_lookup rt h key Hplain) as Hlookup.
  split; [exact Hlookup|]. rewrite Hlookup.
  unfold EmotionDashboard.occurrences.
  destruct (filter (fun data => EmotionDashboard.emotion data = key) h)
    as [|data l] eqn:Hf; cbn [List.length Nat.eqb].
  - split; [intros [v Hv]; discriminate Hv|].
    intros (data & Hin & Hkey).
    assert (data ∈ filter (fun data => EmotionDashboard.emotion data = key) h) as Hd
        by (apply list_elem_of_filter; split; assumption).
    rewrite Hf in Hd. apply elem_of_nil in Hd. contradiction.
  - split; [|eauto]. intros _.
    assert (data ∈ filter (fun data => EmotionDashboard.emotion data = key) h) as Hd
        by (rewrite Hf; left).
    apply list_elem_of_filter in Hd as [Hkey Hin]. eauto.
Qed.

Lemma plain_labels_sample : EmotionDashboard.plain_labels sample_history.
Proof. repeat constructor. Defined.

Lemma counts_are_occurrences_witness :
  EmotionDashboard.getEmotionCounts v8 sample_history !! "happy" =
    Some (JNum (Num.of_Z 2)) /\
  EmotionDashboard.getEmotionCounts v8 sample_history !! "sad" = None.
Proof.
  split.
  - exact (proj1 (counts_are_occurrences v8 sample_history "happy"
                    plain_labels_sample)).
  - exact (proj1 (counts_are_occurrences v8 sample_history "sad"
                    plain_labels_sample)).
Defined.

(** X21: for such a history the entries of the table are whole numbers,
    each at least 1 and at most the number of detections, and together
    they add up to the number of detections the dashboard shows. *)
Theorem counts_add_up (rt : EmotionDashboard.runtime)
    (h : list EmotionDashboard.EmotionData) :
  EmotionDashboard.plain_labels h ->
  exists ns : list (string * Z),
    map_to_list (EmotionDashboard.getEmotionCounts rt h) =
      map (fun kn => (fst kn, JNum (Num.of_Z (snd kn)))) ns /\
    Forall (fun kn => 1 <= snd kn <= EmotionDashboard.totalDetections h) ns /\
    foldr Z.add 0 (map snd ns) = EmotionDashboard.totalDetections h.
Proof.
  intros Hplain.
  set (counts := EmotionDashboard.getEmotionCounts rt h).
  set (occ := fun k => Z.of_nat (EmotionDashboard.occurrences k h)).
  exists (map (fun kv => (fst kv, occ (fst kv))) (map_to_list counts)).
  assert (forall k v, (k, v) ∈ map_to_list counts ->
                      v = JNum (Num.of_Z (occ k)) /\
                      (EmotionDashboard.occurrences k h <> 0)%nat) as Hentry.
  { intros k v Hkv. apply elem_of_map_to_list in Hkv. unfold counts in Hkv.
    rewrite (getEmotionCounts_lookup rt h k Hplain) in Hkv.
    destruct (EmotionDashboard.occurrences k h) eqn:Hocc; cbn [Nat.eqb] in Hkv;
      [discriminate|].
    injection Hkv as <-. unfold occ. rewrite Hocc. split; [reflexivity|lia]. }
  split; [|split].
  - rewrite List.map_map. cbn [fst snd]. symmetry.
    rewrite <- (List.map_id (map_to_list counts)) at 2.
    apply List.map_ext_in. intros [k v] Hin.
    apply list_elem_of_In in Hin. destruct (Hentry k v Hin) as [-> _].
    reflexivity.
  - apply List.Forall_map. apply Forall_forall. intros [k v] Hin.
    destruct (Hentry k v Hin) as [_ Hocc]. cbn [fst snd]. unfold occ.
    unfold EmotionDashboard.totalDetections.
    assert (EmotionDashboard.occurrences k h <= List.length h)%nat
      by (unfold EmotionDashboard.occurrences; apply length_filter).
    lia.
  - rewrite List.map_map. cbn [snd fst].
    rewrite <- (List.map_map fst (fun k => occ k)).
    unfold occ. apply sum_occurrences.
    + apply NoDup_fst_map_to_list.
    + apply Forall_forall. intros data Hdata.
      assert (is_Some (counts !! EmotionDashboard.emotion data)) as [v Hv].
      { unfold counts. rewrite (getEmotionCounts_lookup rt h _ Hplain).
        assert (EmotionDashboard.occurrences (EmotionDashboard.emotion data) h <> 0)%nat
          as Hne.
        { unfold EmotionDashboard.occurrences. intros Hz.
          apply length_zero_iff_nil in Hz.
          assert (data ∈ filter (fun d => EmotionDashboard.emotion d =
                                          EmotionDashboard.emotion data) h) as Hd
              by (apply list_elem_of_filter; split; [reflexivity|exact Hdata]).
          rewrite Hz in Hd. apply elem_of_nil in Hd. contradiction. }
        destruct (EmotionDashboard.occurrences (EmotionDashboard.emotion data) h);
          [contradiction|]. cbn [Nat.eqb]. eauto. }
      apply elem_of_map_to_list in Hv.
      apply (list_elem_of_fmap_2 fst) in Hv. exact Hv.
Qed.

Lemma counts_add_up_witness :
  exists ns : list (string * Z),
    map_to_list (EmotionDashboard.getEmotionCounts v8 sample_history) =
      map (fun kn => (fst kn, JNum (Num.of_Z (snd kn)))) ns /\
    Forall (fun kn => 1 <= snd kn <= EmotionDashboard.totalDetections sample_history) ns /\
    foldr Z.add 0 (map snd ns) = 3.
Proof.
  exact (counts_add_up v8 sample_history plain_labels_sample).
Defined.

(** X22: for such a history the share the dashboard computes for an
    emotion of the table, [(count / totalDetections) * 100], is a
    number above 0 and at most 100. *)
Theorem percentage_in_range (rt : EmotionDashboard.runtime)
    (h : list EmotionDashboard.EmotionData) (key : string) (count : jsval) :
  EmotionDashboard.plain_labels h ->
  EmotionDashboard.getEmotionCounts rt h !! key = Some count ->
  exists (n : number) (q : Q),
    count = JNum n /\
    EmotionDashboard.percentage n h = Fin q /\
    (0 < q)%Q /\ (q <= 100)%Q.
Proof.
  intros Hplain Hcount.
  rewrite (getEmotionCounts_lookup rt h key Hplain) in Hcount.
  destruct (EmotionDashboard.occurrences key h) as [|m] eqn:Hocc;
    cbn [Nat.eqb] in Hcount; [discriminate|].
  injection Hcount as <-.
  assert (EmotionDashboard.occurrences key h <= List.length h)%nat as Hle
      by (unfold EmotionDashboard.occurrences; apply length_filter).
  rewrite Hocc in Hle.
  set (n := Z.of_nat (S m)). set (total := Z.of_nat (List.length h)).
  assert (1 <= n <= total) as Hn by (unfold n, total; lia).
  exists (Num.of_Z n), (inject_Z n / inject_Z total * inject_Z 100)%Q.
  split; [reflexivity|].
  assert (0 < inject_Z total)%Q as Htotal.
  { unfold Qlt, inject_Z. cbn. lia. }
  assert (0 < inject_Z n)%Q as Hpos.
  { unfold Qlt, inject_Z. cbn. lia. }
  assert (inject_Z n <= inject_Z total)%Q as Hbound.
  { unfold Qle, inject_Z. cbn. lia. }
  split; [|split].
  - unfold EmotionDashboard.percentage, EmotionDashboard.totalDetections.
    fold total. unfold Num.of_Z, Num.div.
    destruct (Qeq_bool (inject_Z total) 0) eqn:E.
    + apply Qeq_bool_iff in E. rewrite E in Htotal.
      exfalso. exact (Qlt_irrefl 0 Htotal).
    + reflexivity.
  - assert (0 < inject_Z n / inject_Z total)%Q as Hq.
    { apply Qlt_shift_div_l; [exact Htotal|]. lra. }
    change (inject_Z 100) with 100%Q. lra.
  - assert (inject_Z n / inject_Z total <= 1)%Q as Hq.
    { apply Qle_shift_div_r; [exact Htotal|]. lra. }
    change (inject_Z 100) with 100%Q. lra.
Qed.

Lemma percentage_in_range_witness :
  exists (n : number) (q : Q),
    JNum (Num.of_Z 2) = JNum n /\
    EmotionDashboard.percentage n sample_history = Fin q /\
    (0 < q)%Q /\ (q <= 100)%Q.
Proof.
  exact (percentage_in_range v8 sample_history "happy" (JNum (Num.of_Z 2))
           plain_labels_sample eq_refl).
Defined.

(** ** The camera *)

Section Camera.

Import WebcamFeed.

(** A start on a component without a video element changes nothing but
    [isLoading], and tells the page nothing. *)
Lemma startWebcam_inactive (h : host) (s : state) :
  isActive s = false ->
  fst (startWebcam h s) = setIsLoading false s /\
  (snd (startWebcam h s) = [] \/
   exists message, snd (startWebcam h s) = [camera_error message]).
Proof.
  intros Hs. unfold startWebcam, tryStart, videoRef_current.
  destruct (negb (isSecure h)); [split; [reflexivity|right; eauto]|].
  destruct (negb (mediaDevices h)); [split; [reflexivity|right; eauto]|].
  destruct (getUserMedia h) as [stream|name message].
  - cbn [setIsLoading isActive]. rewrite Hs. cbn [fst snd].
    split; [|left; reflexivity].
    unfold setIsLoading. cbn. reflexivity.
  - split; [reflexivity|right; eauto].
Qed.

Lemma clicks_inactive (hs : list host) (s : state) :
  isActive s = false ->
  isActive (fst (clicks hs s)) = false /\
  srcObject (fst (clicks hs s)) = srcObject s /\
  Forall (fun e => exists message, e = camera_error message) (snd (clicks hs s)).
Proof.
  revert s. induction hs as [|h hs IH]; intros s Hs; cbn [clicks].
  - cbn [fst snd]. repeat split; [exact Hs|constructor].
  - unfold click. rewrite Hs.
    destruct (startWebcam_inactive h s Hs) as [Hstate Hevents].
    destruct (startWebcam h s) as [s1 events1]. cbn [fst snd] in Hstate, Hevents.
    subst s1.
    destruct (IH (setIsLoading false s) Hs) as (Hact & Hsrc & Hall).
    destruct (clicks hs (setIsLoading false s)) as [s2 events2].
    cbn [fst snd] in *. split; [exact Hact|]. split; [exact Hsrc|].
    apply Forall_app. split; [|exact Hall].
    destruct Hevents as [->|[message ->]]; repeat constructor. eauto.
Qed.

End Camera.

(** X23: [startWebcam] always ends with [isLoading] cleared; and when
    the page is not served securely, when the browser has no
    [getUserMedia] or when the request for the camera is rejected, it
    changes nothing else and shows one destructive toast. *)
Theorem startWebcam_clears_loading (h : WebcamFeed.host) (s : WebcamFeed.state) :
  WebcamFeed.isLoading (fst (WebcamFeed.startWebcam h s)) = false /\
  (WebcamFeed.isSecure h = false \/
   WebcamFeed.mediaDevices h = false \/
   (exists name message,
       WebcamFeed.getUserMedia h = WebcamFeed.Rejected name message) ->
   fst (WebcamFeed.startWebcam h s) = WebcamFeed.setIsLoading false s /\
   exists message, snd (WebcamFeed.startWebcam h s) = [camera_error message]).
Proof.
  unfold WebcamFeed.startWebcam, WebcamFeed.tryStart.
  destruct (WebcamFeed.isSecure h) eqn:Hsec; cbn [negb].
  - destruct (WebcamFeed.mediaDevices h) eqn:Hmedia; cbn [negb].
    + destruct (WebcamFeed.getUserMedia h) as [stream|name message] eqn:Hget.
      * destruct (WebcamFeed.videoRef_current (WebcamFeed.setIsLoading true s));
          (split; [reflexivity|]);
          intros [H|[H|(n & m & H)]]; discriminate H.
      * split; [reflexivity|]. intros _. split; [reflexivity|]. eauto.
    + split; [reflexivity|]. intros _. split; [reflexivity|]. eauto.
  - split; [reflexivity|]. intros _. split; [reflexivity|]. eauto.
Qed.

(** X24: the message of the error toast.  On a page that is not served
    securely the camera is not asked for and the toast says that HTTPS
    is required; a browser without [getUserMedia] gets the general
    message about permissions; a rejection is told by its name
    ([NotAllowedError], [NotFoundError], [NotSupportedError]) whatever
    its message says. *)
Theorem startWebcam_error_message (h : WebcamFeed.host) (s : WebcamFeed.state) :
  (WebcamFeed.isSecure h = false ->
   snd (WebcamFeed.startWebcam h s) =
   [camera_error "Camera requires HTTPS. Please use HTTPS or localhost."]) /\
  (WebcamFeed.isSecure h = true ->
   WebcamFeed.mediaDevices h = false ->
   snd (WebcamFeed.startWebcam h s) =
   [camera_error "Could not access your camera. Please check permissions."]) /\
  (WebcamFeed.isSecure h = true ->
   WebcamFeed.mediaDevices h = true ->
   forall name message,
     WebcamFeed.getUserMedia h = WebcamFeed.Rejected name message ->
     snd (WebcamFeed.startWebcam h s) =
     [camera_error (WebcamFeed.errorMessage name message)] /\
     (name = "NotAllowedError" ->
      WebcamFeed.errorMessage name message =
      "Camera permission denied. Please allow camera access and refresh the page.") /\
     (name = "NotFoundError" ->
      WebcamFeed.errorMessage name message =
      "No camera found. Please connect a camera and try again.") /\
     (name = "NotSupportedError" ->
      WebcamFeed.errorMessage name message =
      "Camera not supported. Please use a modern browser with HTTPS.")).
Proof.
  unfold WebcamFeed.startWebcam, WebcamFeed.tryStart.
  split; [|split].
  - intros ->. reflexivity.
  - intros -> ->. reflexivity.
  - intros -> -> name message ->. split; [reflexivity|].
    split; [|split]; intros ->; reflexivity.
Qed.

Lemma startWebcam_error_message_witness :
  snd (WebcamFeed.startWebcam http_host WebcamFeed.initial) =
  [camera_error "Camera requires HTTPS. Please use HTTPS or localhost."].
Proof.
  exact (proj1 (startWebcam_error_message http_host WebcamFeed.initial) eq_refl).
Defined.

(** X25: the video element exists only while [isActive] holds, and
    [startWebcam] sets [isActive] only if the element exists: a
    component that is not active stays so, whatever the clicks and
    whatever the camera answers.  The stream is never attached, the
    video never played, [onVideoReady] never called; the only events
    are the toasts of failed starts. *)
Theorem camera_never_activates (hs : list WebcamFeed.host) (s : WebcamFeed.state) :
  WebcamFeed.isActive s = false ->
  WebcamFeed.isActive (fst (WebcamFeed.clicks hs s)) = false /\
  WebcamFeed.srcObject (fst (WebcamFeed.clicks hs s)) = WebcamFeed.srcObject s /\
  (WebcamFeed.VideoReady ∉ snd (WebcamFeed.clicks hs s)) /\
  (WebcamFeed.Play ∉ snd (WebcamFeed.clicks hs s)).
Proof.
  intros Hs. destruct (clicks_inactive hs s Hs) as (Hact & Hsrc & Hall).
  split; [exact Hact|]. split; [exact Hsrc|].
  rewrite Forall_forall in Hall.
  split; intros Hin; destruct (Hall _ Hin) as [message H]; discriminate H.
Qed.

Lemma camera_never_activates_witness :
  WebcamFeed.isActive
    (fst (WebcamFeed.clicks [https_host; https_host] WebcamFeed.initial)) = false /\
  (WebcamFeed.VideoReady ∉
     snd (WebcamFeed.clicks [https_host; https_host] WebcamFeed.initial)).
Proof.
  pose proof (camera_never_activates [https_host; https_host] WebcamFeed.initial
                eq_refl) as (Hact & _ & Hready & _).
  split; [exact Hact | exact Hready].
Defined.

(** X26: a click on a component that shows a stream stops every track
    of the stream, detaches it and clears [isActive]; after that no
    click brings the camera back. *)
Theorem stop_releases_the_camera (h : WebcamFeed.host)
    (hs : list WebcamFeed.host) (stream : WebcamFeed.MediaStream) :
  let stopped := WebcamFeed.click h (streaming stream) in
  WebcamFeed.isActive (fst stopped) = false /\
  WebcamFeed.srcObject (fst stopped) = None /\
  (forall track, track ∈ stream -> WebcamFeed.TrackStopped track ∈ snd stopped) /\
  WebcamFeed.isActive (fst (WebcamFeed.clicks hs (fst stopped))) = false.
Proof.
  intros stopped. unfold stopped, WebcamFeed.click, streaming.
  cbn [WebcamFeed.isActive WebcamFeed.stopWebcam WebcamFeed.videoRef_current
       WebcamFeed.srcObject fst snd].
  split; [reflexivity|]. split; [reflexivity|]. split.
  - intros track Hin. apply elem_of_app. left.
    apply (list_elem_of_fmap_2 WebcamFeed.TrackStopped). exact Hin.
  - apply clicks_inactive. reflexivity.
Qed.

(** ** The earlier, primary-first orchestrator *)

Section LegacyFacts.

(** The random index of the earlier fallback. *)
Lemma random_index (r : Q) :
  (0 <= r)%Q -> (r < 1)%Q ->
  exists i, 0 <= i < 7 /\
            Num.floor (Num.mul (Fin r) (Num.of_Z 7)) = Num.of_Z i.
Proof.
  intros Hr0 Hr1. exists (Qfloor (r * inject_Z 7)). split; [|reflexivity].
  assert (0 <= r * inject_Z 7)%Q as Hlo by (change (inject_Z 7) with 7%Q; lra).
  assert (r * inject_Z 7 < 7)%Q as Hhi by (change (inject_Z 7) with 7%Q; lra).
  split.
  - change 0 with (Qfloor 0). apply Qfloor_resp_le. exact Hlo.
  - rewrite Zlt_Qlt. eapply Qle_lt_trans; [apply Qfloor_le|exact Hhi].
Qed.

End LegacyFacts.

(** X27: the earlier [detectEmotionWithFallback] gives the answer of
    the primary path when there is one, and the answer of the fallback
    when the primary path answers [null] or throws, the failure of the
    load included; so it returns a prediction in every case, and never
    throws.  It leaves the service as [detectEmotion] leaves it. *)
Theorem legacy_primary_first (w : world) (random2 : Q) (this : t)
    (imageElement : source) :
  let primary := Legacy.detectEmotion w this imageElement in
  let answer := Legacy.detectEmotionWithFallback w random2 this imageElement in
  (forall p, fst primary = Returned (Some p) -> fst answer = Returned (Some p)) /\
  (fst primary = Returned None \/ (exists e, fst primary = Thrown e) ->
   fst answer =
   Returned (Some (Legacy.fallbackEmotionDetection w random2 imageElement))) /\
  (exists p, fst answer = Returned (Some p)) /\
  snd answer = snd primary.
Proof.
  intros primary answer. unfold answer, Legacy.detectEmotionWithFallback.
  fold primary. destruct primary as [[[p|]|e] this']; cbn [fst snd].
  - split; [intros q Hq; exact Hq|]. split.
    + intros [H|[e H]]; discriminate H.
    + split; [eauto|reflexivity].
  - split; [intros q Hq; discriminate Hq|]. split; [reflexivity|].
    split; [eauto|reflexivity].
  - split; [intros q Hq; discriminate Hq|]. split; [reflexivity|].
    split; [eauto|reflexivity].
Qed.

(** X28: with the earlier orchestrator a load in which every option
    fails is not the caller's problem: on a new service the call
    returns the prediction of the fallback, and the service is left
    neither initialised nor initialising, so that the next call tries
    the load again. *)
Theorem legacy_absorbs_load_failure (w : world) (random2 : Q) (this : t)
    (imageElement : source) :
  isInitialized this = false ->
  isInitializing this = false ->
  forallb (fails_to_load w) Legacy.modelOptions = true ->
  fst (Legacy.detectEmotion w this imageElement) = Thrown AllFailed /\
  Legacy.detectEmotionWithFallback w random2 this imageElement =
  (Returned (Some (Legacy.fallbackEmotionDetection w random2 imageElement)), this).
Proof.
  intros Hinit Hbusy Hfail.
  assert (Legacy.detectEmotion w this imageElement = (Thrown AllFailed, this)) as Hd.
  { unfold Legacy.detectEmotion, Legacy.initialize.
    rewrite Hinit, Hbusy. cbn [negb orb].
    destruct (try_models_cases w Legacy.modelOptions
                {| classifier := classifier this;
                   isInitialized := false;
                   isInitializing := true |}) as [[_ ->]|[Hsome _]];
      [|rewrite Hfail in Hsome; discriminate Hsome].
    cbn. destruct this as [c i b]. cbn in Hinit, Hbusy. subst. reflexivity. }
  unfold Legacy.detectEmotionWithFallback. rewrite Hd. split; reflexivity.
Qed.

Lemma legacy_absorbs_load_failure_witness :
  exists p,
    Legacy.detectEmotionWithFallback (offline 7 (1 # 2)) (1 # 4) new webcam =
    (Returned (Some p), new).
Proof.
  eexists.
  exact (proj2 (legacy_absorbs_load_failure (offline 7 (1 # 2)) (1 # 4) new webcam
                  eq_refl eq_refl eq_refl)).
Defined.

(** X29: the earlier fallback, with both its random numbers in [0, 1),
    gives one of the seven labels and a confidence between 0.3 and
    0.7. *)
Theorem legacy_fallback_in_range (w : world) (random2 : Q) (imageElement : source) :
  random_in_range w ->
  (0 <= random2)%Q ->
  (random2 < 1)%Q ->
  let p := Legacy.fallbackEmotionDetection w random2 imageElement in
  is_canonical (emotion p) = true /\
  Num.leb (Fin (3 # 10)) (confidence p) = true /\
  Num.leb (confidence p) (Fin (7 # 10)) = true /\
  in_unit_interval (confidence p) = true.
Proof.
  intros [Hr0 Hr1] Hs0 Hs1 p. subst p.
  unfold Legacy.fallbackEmotionDetection. cbn [emotion confidence].
  split.
  - change (Num.of_Z (Z.of_nat (List.length Legacy.emotions))) with (Num.of_Z 7).
    destruct (random_index (Math_random w) Hr0 Hr1) as (i & Hi & ->).
    unfold at_index. rewrite to_index_of_Z by lia.
    assert (i = 0 \/ i = 1 \/ i = 2 \/ i = 3 \/ i = 4 \/ i = 5 \/ i = 6) as Ci by lia.
    destruct Ci as [->|[->|[->|[->|[->|[->| ->]]]]]]; vm_compute; reflexivity.
  - unfold in_unit_interval, Num.add, Num.mul, Num.leb, Num.zero, Num.one.
    repeat split; try apply andb_true_intro; try split;
      apply Qle_bool_iff; lra.
Qed.

Lemma legacy_fallback_in_range_witness :
  is_canonical
    (emotion (Legacy.fallbackEmotionDetection (offline 7 (1 # 2)) (1 # 4) webcam))
  = true.
Proof.
  assert (random_in_range (offline 7 (1 # 2))) as Hrand
      by (unfold random_in_range; simpl; lra).
  exact (proj1 (legacy_fallback_in_range (offline 7 (1 # 2)) (1 # 4) webcam
                  Hrand ltac:(lra) ltac:(lra))).
Defined.
